(** * DriveIQ: the trip tracker of the "Today" screen

    A shallow embedding of the trip telemetry code of the Today screen:
    [handleLocationUpdate], [startTracking], [stopTracking] and
    [calculateDistance].  The repository holds the screen in three
    revisions.  The first revision (a foreground watcher only) and the
    second (which adds the background task and the toasts) classify
    events the same way; the third (offline-capable, driven by
    [tripDataRef]) adds a guard on the hard-brake test and rounds the
    score.  Module [Foreground] embeds the first revision, module
    [Offline] the third.  The helpers of the other screens that compute
    something ([getScoreColor], [getScoreGrade], [formatDuration],
    [fetchTodayScore]) and the saving of a finished trip
    ([saveOfflineTrip]) follow.

    Numbers.  A JavaScript number is a double.  Speeds, counters and the
    score are integral after [Math.round] and are modelled in [Z]; the raw
    speed of a fix and the averages are finite doubles, hence rationals,
    and are modelled in [Q] with exact arithmetic; coordinates and
    distances go through [Math.sin], [Math.cos], [Math.sqrt] and
    [Math.atan2] and are modelled in [R].  Rounding error of the double
    operations, NaN and the infinities are outside that model; module
    [Double] has the distance on IEEE-754 doubles, where what exact
    arithmetic promises of the distance can fail. *)

From Stdlib Require Import ZArith QArith Qround Qminmax List Lia Lra Bool String.
From Stdlib Require Import Reals.
From Stdlib Require Import Psatz Qabs DecimalString.
From Stdlib Require PrimFloat FloatOps FloatAxioms SpecFloat.
Import ListNotations.

Local Open Scope Z_scope.

(** ** JavaScript numeric primitives *)

Module JS.

(** [Math.round]: the integer nearest to [x], ties towards +infinity. *)
Definition Math_round (x : Q) : Z := Qfloor (x + (1 # 2)).

(** [Math.max] on two integral numbers. *)
Definition Math_max (a b : Z) : Z := Z.max a b.

(** [v || 0] on a value of type [number | null]: [null] and [0] are falsy. *)
Definition or_zero (v : option Q) : Q :=
  match v with
  | Some q => q
  | None => 0%Q
  end.

(** [x.toFixed(d)] read back by [parseFloat]: the nearest multiple of
    [10^-d], ties away from zero (the sign is split off first). *)
Definition toFixed (d : nat) (x : Q) : Q :=
  let p := inject_Z (10 ^ Z.of_nat d) in
  if Qlt_le_dec x 0
  then (- (inject_Z (Qfloor ((- x) * p + (1 # 2))) / p))%Q
  else (inject_Z (Qfloor (x * p + (1 # 2))) / p)%Q.

(** [Math.floor] and the two-decimal [toFixed] on a real. *)
Definition Rfloor (x : R) : Z := Int_part x.

Definition toFixed2_R (x : R) : R :=
  if Rlt_dec x 0
  then (- (IZR (Rfloor ((- x) * 100 + / 2)) / 100))%R
  else (IZR (Rfloor (x * 100 + / 2)) / 100)%R.

(** [Math.atan2 (y, x)] on reals. *)
Definition Math_atan2 (y x : R) : R :=
  if Rlt_dec 0 x then atan (y / x)
  else if Rlt_dec x 0 then
    (if Rle_dec 0 y then atan (y / x) + PI else atan (y / x) - PI)%R
  else if Rlt_dec 0 y then (PI / 2)%R
  else if Rlt_dec y 0 then (- (PI / 2))%R
  else 0%R.

End JS.

(** ** Speed conversion *)

(** The first two lines of [handleLocationUpdate]:
    [speedKmh = (location.coords.speed || 0) * 3.6] and
    [speed = Math.max(0, Math.round(speedKmh))]. *)
Definition speedKmh (raw : option Q) : Q := (JS.or_zero raw * (36 # 10))%Q.

Definition speed_of (raw : option Q) : Z :=
  JS.Math_max 0 (JS.Math_round (speedKmh raw)).

(** The conversion as the specification words it:
    [round(max(0, speedMetersPerSecond * 3.6))], an absent speed being 0. *)
Definition spec_speedKmh (raw : option Q) : Z :=
  JS.Math_round (Qmax 0 (match raw with Some q => q | None => 0 end * (36 # 10)))%Q.

(** ** Geodesy *)

(** [calculateDistance]: the haversine distance in kilometres, read in
    exact arithmetic (module [Double] has it in double precision).  The
    three revisions of the screen carry the same function. *)
Definition calculateDistance (lat1 lon1 lat2 lon2 : R) : R :=
  (let R := 6371 in
   let dLat := (lat2 - lat1) * PI / 180 in
   let dLon := (lon2 - lon1) * PI / 180 in
   let a :=
     sin (dLat / 2) * sin (dLat / 2) +
     cos (lat1 * PI / 180) * cos (lat2 * PI / 180) *
     sin (dLon / 2) * sin (dLon / 2) in
   let c := 2 * JS.Math_atan2 (sqrt a) (sqrt (1 - a)) in
   R * c)%R.

(** The same function over any carrier of numbers, to tell which laws of
    the arithmetic its symmetry rests on. *)
Record Arith (F : Type) := mkArith {
  lit : Z -> F;
  pi : F;
  add : F -> F -> F;
  sub : F -> F -> F;
  mul : F -> F -> F;
  div : F -> F -> F;
  neg : F -> F;
  sin_ : F -> F;
  cos_ : F -> F;
  sqrt_ : F -> F;
  atan2_ : F -> F -> F
}.

Arguments lit {F} _ _.
Arguments pi {F} _.
Arguments add {F} _ _ _.
Arguments sub {F} _ _ _.
Arguments mul {F} _ _ _.
Arguments div {F} _ _ _.
Arguments neg {F} _ _.
Arguments sin_ {F} _ _.
Arguments cos_ {F} _ _.
Arguments sqrt_ {F} _ _.
Arguments atan2_ {F} _ _ _.

Definition calculateDistance_on {F : Type} (A : Arith F)
    (lat1 lon1 lat2 lon2 : F) : F :=
  let R := lit A 6371 in
  let dLat := div A (mul A (sub A lat2 lat1) (pi A)) (lit A 180) in
  let dLon := div A (mul A (sub A lon2 lon1) (pi A)) (lit A 180) in
  let a :=
    add A
      (mul A (sin_ A (div A dLat (lit A 2))) (sin_ A (div A dLat (lit A 2))))
      (mul A
         (mul A
            (mul A (cos_ A (div A (mul A lat1 (pi A)) (lit A 180)))
                   (cos_ A (div A (mul A lat2 (pi A)) (lit A 180))))
            (sin_ A (div A dLon (lit A 2))))
         (sin_ A (div A dLon (lit A 2)))) in
  let c := mul A (lit A 2)
             (atan2_ A (sqrt_ A a) (sqrt_ A (sub A (lit A 1) a))) in
  mul A R c.

(** The real numbers as such a carrier. *)
Definition real_arith : Arith R :=
  {| lit := IZR; pi := PI;
     add := Rplus; sub := Rminus; mul := Rmult; div := Rdiv; neg := Ropp;
     sin_ := sin; cos_ := cos; sqrt_ := sqrt; atan2_ := JS.Math_atan2 |}.

(** ** Data shared by the revisions *)

(** [Location.LocationObject], reduced to the fields the screen reads.
    [speed] has type [number | null]. *)
Module Location.

Record Coords := mkCoords {
  latitude : R;
  longitude : R;
  speed : option Q
}.

Record LocationObject := mkLocation {
  coords : Coords;
  timestamp : Z
}.

End Location.

(** The body of the [PUT /api/trips/:id] request (and of the record kept
    locally by [saveOfflineTrip]). Instants are in milliseconds. *)
Record Summary := mkSummary {
  end_time : Z;
  distance_km : R;
  duration_minutes : Q;
  max_speed : Z;
  avg_speed : Q;
  hard_brakes : Z;
  hard_accelerations : Z;
  speeding_count : Z;
  score : Z
}.

(** [readings.reduce((a, b) => a + b, 0)]. *)
Definition sum_readings (readings : list Z) : Z :=
  fold_left (fun a b => a + b) readings 0.

(** [readings.length > 0 ? sum / readings.length : 0]. *)
Definition average (readings : list Z) : Q :=
  if 0 <? Z.of_nat (List.length readings)
  then (inject_Z (sum_readings readings) /
        inject_Z (Z.of_nat (List.length readings)))%Q
  else 0%Q.

(** The messages handed to [showToast]: the two warnings of
    [handleLocationUpdate] and the two that [startTracking] of the third
    revision can give (no permission to locate in the background; the
    background updates could not be started). *)
Inductive Toast :=
| HardBrakeToast
| SpeedingToast
| BackgroundPermissionToast
| BackgroundStartToast.

(** ** First revision: foreground watcher *)

Module Foreground.

Record TripData := mkTripData {
  id : string;
  startTime : Z;
  distance : R;
  maxSpeed : Z;
  avgSpeed : Q;
  hardBrakes : Z;
  hardAccelerations : Z;
  speedingCount : Z;
  speedReadings : list Z
}.

(** What the callbacks of the screen share: the [tripData] object that
    the watcher closure captured, the React state [currentTrip] (a copy
    taken after each update) and [currentSpeed], and the two refs. *)
Record Screen := mkScreen {
  tripData : TripData;
  currentTrip : option TripData;
  currentSpeed : Z;
  previousSpeed : Z;
  previousLocation : option Location.LocationObject
}.

(** [startTracking], once the trip has been created under [tripId]. *)
Definition startTracking (tripId : string) (now : Z) : Screen :=
  let tripData := {|
    id := tripId;
    startTime := now;
    distance := 0;
    maxSpeed := 0;
    avgSpeed := 0;
    hardBrakes := 0;
    hardAccelerations := 0;
    speedingCount := 0;
    speedReadings := []
  |} in
  {| tripData := tripData;
     currentTrip := Some tripData;
     currentSpeed := 0;
     previousSpeed := 0;
     previousLocation := None |}.

Definition handleLocationUpdate
    (location : Location.LocationObject) (s : Screen) : Screen :=
  let t := tripData s in
  let speed := speed_of (Location.speed (Location.coords location)) in
  (* distance from the previous location *)
  let distance' :=
    match previousLocation s with
    | Some previous =>
        (distance t +
         calculateDistance
           (Location.latitude (Location.coords previous))
           (Location.longitude (Location.coords previous))
           (Location.latitude (Location.coords location))
           (Location.longitude (Location.coords location)))%R
    | None => distance t
    end in
  let maxSpeed' := if maxSpeed t <? speed then speed else maxSpeed t in
  let speedReadings' := speedReadings t ++ [speed] in
  (* hard braking *)
  let speedDiff := previousSpeed s - speed in
  let hardBrakes' :=
    if 15 <? speedDiff then hardBrakes t + 1 else hardBrakes t in
  (* hard acceleration *)
  let speedIncrease := speed - previousSpeed s in
  let hardAccelerations' :=
    if 15 <? speedIncrease
    then hardAccelerations t + 1 else hardAccelerations t in
  (* speeding *)
  let speedingCount' :=
    if (130 <? speed) && (previousSpeed s <=? 130)
    then speedingCount t + 1 else speedingCount t in
  let t' := {|
    id := id t;
    startTime := startTime t;
    distance := distance';
    maxSpeed := maxSpeed';
    avgSpeed := avgSpeed t;
    hardBrakes := hardBrakes';
    hardAccelerations := hardAccelerations';
    speedingCount := speedingCount';
    speedReadings := speedReadings'
  |} in
  {| tripData := t';
     currentTrip := Some t';
     currentSpeed := speed;
     previousSpeed := speed;
     previousLocation := Some location |}.

(** The score block of [stopTracking]. *)
Definition trip_score (t : TripData) : Z :=
  let score := 100 in
  let score := score - hardBrakes t * 4 in
  let score := score - hardAccelerations t * 4 in
  let score := score - speedingCount t * 8 in
  JS.Math_max 0 score.

(** [stopTracking] up to the request it sends; nothing is sent when
    [currentTrip] is null. *)
Definition stopTracking (endTime : Z) (s : Screen) : option Summary :=
  match currentTrip s with
  | None => None
  | Some currentTrip =>
      let durationMs := endTime - startTime currentTrip in
      let durationMinutes := (inject_Z durationMs / 60000)%Q in
      let avgSpeed := average (speedReadings currentTrip) in
      Some {|
        end_time := endTime;
        distance_km := JS.toFixed2_R (distance currentTrip);
        duration_minutes := JS.toFixed 2 durationMinutes;
        max_speed := maxSpeed currentTrip;
        avg_speed := JS.toFixed 1 avgSpeed;
        hard_brakes := hardBrakes currentTrip;
        hard_accelerations := hardAccelerations currentTrip;
        speeding_count := speedingCount currentTrip;
        score := trip_score currentTrip
      |}
  end.

(** The watcher delivering the fixes of [locations] one after the other. *)
Definition feed (locations : list Location.LocationObject) (s : Screen)
  : Screen :=
  fold_left (fun acc location => handleLocationUpdate location acc)
            locations s.

(** [t'] is nowhere below [t] in the five accumulated quantities. *)
Definition trip_le (t t' : TripData) : Prop :=
  (distance t <= distance t')%R /\
  maxSpeed t <= maxSpeed t' /\
  hardBrakes t <= hardBrakes t' /\
  hardAccelerations t <= hardAccelerations t' /\
  speedingCount t <= speedingCount t'.

(** What holds of the screen while a trip is being tracked. *)
Definition tracking (s : Screen) : Prop :=
  let t := tripData s in
  currentTrip s = Some t /\
  0 <= previousSpeed s /\
  0 <= hardBrakes t /\
  0 <= hardAccelerations t /\
  0 <= speedingCount t /\
  Forall (fun v => 0 <= v) (speedReadings t) /\
  maxSpeed t = fold_left Z.max (speedReadings t) 0.

End Foreground.

(** ** Third revision: offline-capable screen *)

Module Offline.

Record TripData := mkTripData {
  id : string;
  startTime : Z;
  distance : R;
  maxSpeed : Z;
  avgSpeed : Q;
  hardBrakes : Z;
  hardAccelerations : Z;
  speedingCount : Z;
  speedReadings : list Z;
  isOffline : bool
}.

(** The refs and React state of the screen, and the toasts shown so far
    (latest last). *)
Record Screen := mkScreen {
  tripDataRef : option TripData;
  currentTrip : option TripData;
  currentSpeed : Z;
  previousSpeed : Z;
  previousLocation : option Location.LocationObject;
  toasts : list Toast
}.

(** What [startTracking] finds: whether [Platform.OS] is android, the
    state [backgroundPermission], and whether
    [Location.startLocationUpdatesAsync] resolves rather than throws. *)
Record Device := mkDevice {
  android : bool;
  backgroundPermission : bool;
  backgroundStarts : bool
}.

Definition all_granted : Device := mkDevice true true true.

(** [startTracking], once the trip identifier is settled and the
    foreground watcher runs.  On android it warns when the background
    permission is missing and when the background updates fail to start. *)
Definition startTracking (device : Device) (tripId : string)
    (offline : bool) (now : Z) : Screen :=
  let tripData := {|
    id := tripId;
    startTime := now;
    distance := 0;
    maxSpeed := 0;
    avgSpeed := 0;
    hardBrakes := 0;
    hardAccelerations := 0;
    speedingCount := 0;
    speedReadings := [];
    isOffline := offline
  |} in
  {| tripDataRef := Some tripData;
     currentTrip := Some tripData;
     currentSpeed := 0;
     previousSpeed := 0;
     previousLocation := None;
     toasts :=
       (if android device && negb (backgroundPermission device)
        then [BackgroundPermissionToast] else [])
       ++ (if android device && negb (backgroundStarts device)
           then [BackgroundStartToast] else []) |}.

Definition handleLocationUpdate
    (location : Location.LocationObject) (s : Screen) : Screen :=
  match tripDataRef s with
  | None => s
  | Some t =>
    let speed := speed_of (Location.speed (Location.coords location)) in
    let distance' :=
      match previousLocation s with
      | Some previous =>
          (distance t +
           calculateDistance
             (Location.latitude (Location.coords previous))
             (Location.longitude (Location.coords previous))
             (Location.latitude (Location.coords location))
             (Location.longitude (Location.coords location)))%R
      | None => distance t
      end in
    let maxSpeed' := if maxSpeed t <? speed then speed else maxSpeed t in
    let speedReadings' := speedReadings t ++ [speed] in
    (* hard braking, only from above 20 km/h *)
    let speedDiff := previousSpeed s - speed in
    let brake := (15 <? speedDiff) && (20 <? previousSpeed s) in
    let hardBrakes' := if brake then hardBrakes t + 1 else hardBrakes t in
    (* hard acceleration *)
    let speedIncrease := speed - previousSpeed s in
    let hardAccelerations' :=
      if 15 <? speedIncrease
      then hardAccelerations t + 1 else hardAccelerations t in
    (* speeding *)
    let speeding := (130 <? speed) && (previousSpeed s <=? 130) in
    let speedingCount' :=
      if speeding then speedingCount t + 1 else speedingCount t in
    let t' := {|
      id := id t;
      startTime := startTime t;
      distance := distance';
      maxSpeed := maxSpeed';
      avgSpeed := avgSpeed t;
      hardBrakes := hardBrakes';
      hardAccelerations := hardAccelerations';
      speedingCount := speedingCount';
      speedReadings := speedReadings';
      isOffline := isOffline t
    |} in
    {| tripDataRef := Some t';
       currentTrip := Some t';
       currentSpeed := speed;
       previousSpeed := speed;
       previousLocation := Some location;
       toasts := toasts s
                 ++ (if brake then [HardBrakeToast] else [])
                 ++ (if speeding then [SpeedingToast] else []) |}
  end.

(** The score block of [stopTracking]; this revision rounds the score. *)
Definition trip_score (t : TripData) : Z :=
  let score := 100 in
  let score := score - hardBrakes t * 4 in
  let score := score - hardAccelerations t * 4 in
  let score := score - speedingCount t * 8 in
  JS.Math_max 0 (JS.Math_round (inject_Z score)).

(** [stopTracking] up to the record it saves (remotely or locally);
    nothing is saved when [tripDataRef] is empty. *)
Definition stopTracking (endTime : Z) (s : Screen) : option Summary :=
  match tripDataRef s with
  | None => None
  | Some tripData =>
      let durationMs := endTime - startTime tripData in
      let durationMinutes := (inject_Z durationMs / 60000)%Q in
      let avgSpeed := average (speedReadings tripData) in
      Some {|
        end_time := endTime;
        distance_km := JS.toFixed2_R (distance tripData);
        duration_minutes := JS.toFixed 2 durationMinutes;
        max_speed := maxSpeed tripData;
        avg_speed := JS.toFixed 1 avgSpeed;
        hard_brakes := hardBrakes tripData;
        hard_accelerations := hardAccelerations tripData;
        speeding_count := speedingCount tripData;
        score := trip_score tripData
      |}
  end.

Definition feed (locations : list Location.LocationObject) (s : Screen)
  : Screen :=
  fold_left (fun acc location => handleLocationUpdate location acc)
            locations s.

(** [t'] is nowhere below [t] in the five accumulated quantities. *)
Definition trip_le (t t' : TripData) : Prop :=
  (distance t <= distance t')%R /\
  maxSpeed t <= maxSpeed t' /\
  hardBrakes t <= hardBrakes t' /\
  hardAccelerations t <= hardAccelerations t' /\
  speedingCount t <= speedingCount t'.

(** What holds of the screen while a trip is being tracked. *)
Definition tracking (s : Screen) : Prop :=
  exists t,
    tripDataRef s = Some t /\
    0 <= previousSpeed s /\
    0 <= hardBrakes t /\
    0 <= hardAccelerations t /\
    0 <= speedingCount t /\
    Forall (fun v => 0 <= v) (speedReadings t) /\
    maxSpeed t = fold_left Z.max (speedReadings t) 0.

End Offline.

(** The largest element of the non-empty list [x :: rest]. *)
Definition list_maximum (x : Z) (rest : list Z) : Z :=
  fold_left Z.max rest x.

(** The score as the specification words it: start at 100, subtract 4 per
    hard brake, 4 per hard acceleration and 8 per speeding event, floor at
    0, round to the nearest integer. *)
Definition spec_score (hardBrakeCount hardAccelCount speedingCount : Z) : Z :=
  JS.Math_round
    (inject_Z (Z.max 0 (100 - 4 * hardBrakeCount - 4 * hardAccelCount
                        - 8 * speedingCount))).

(** ** Sample fixes *)

(** A fix whose reported speed is [kmh] km/h, that is [kmh / 3.6] m/s. *)
Definition fix_at (kmh : Z) : Location.LocationObject :=
  {| Location.coords :=
       {| Location.latitude := 0;
          Location.longitude := 0;
          Location.speed := Some (inject_Z kmh * (10 # 36))%Q |};
     Location.timestamp := 0 |}.

(** The speed that [handleLocationUpdate] derives from a fix. *)
Definition speed_at (location : Location.LocationObject) : Z :=
  speed_of (Location.speed (Location.coords location)).

(** ** The rest of the Today screen *)

Module Today.

(** [getScoreColor]; the score of the day may be null. *)
Definition getScoreColor (score : option Q) : string :=
  match score with
  | None => "#6B7280"
  | Some score =>
      if Qle_bool 80 score then "#10B981"
      else if Qle_bool 60 score then "#F59E0B"
      else "#EF4444"
  end.

(** A trip as the backend lists it, reduced to the fields read here;
    [start_time] is the instant that [new Date(trip.start_time)] denotes. *)
Record Trip := mkTrip {
  start_time : Z;
  score : Z
}.

(** [fetchTodayScore]: [response] is the parsed list when the request
    succeeded, [today] the local midnight, [todayScore] the state before.
    A failed request leaves the state alone. *)
Definition fetchTodayScore (response : option (list Trip)) (today : Z)
    (todayScore : option Z) : option Z :=
  match response with
  | None => todayScore
  | Some trips =>
      let todayTrips := filter (fun trip => today <=? start_time trip) trips in
      if 0 <? Z.of_nat (List.length todayTrips)
      then
        let total := fold_left (fun sum t => sum + score t) todayTrips 0 in
        let avgScore :=
          (inject_Z total / inject_Z (Z.of_nat (List.length todayTrips)))%Q in
        Some (JS.Math_round avgScore)
      else None
  end.

(** The alert closing a trip in the second and third revisions: its three
    titles read "excellent driving", "good driving" and "warning". *)
Inductive Feedback := Excellent | Good | Warning.

Definition feedback (score : Z) : Feedback :=
  if 80 <? score then Excellent
  else if 50 <=? score then Good
  else Warning.

End Today.

(** ** History, trip details and profile *)

(** [getScoreColor] as the History, Trip-details and Profile screens
    define it. *)
Definition getScoreColor (score : Q) : string :=
  if Qle_bool 80 score then "#10B981"
  else if Qle_bool 60 score then "#F59E0B"
  else "#EF4444".

(** [getScoreGrade] of the History and Trip-details screens. *)
Definition getScoreGrade (score : Q) : string :=
  if Qle_bool 90 score then "Excellent"
  else if Qle_bool 80 score then "Good"
  else if Qle_bool 60 score then "Fair"
  else "Needs Improvement".

(** A whole number inside a template literal. *)
Definition string_of_Z (z : Z) : string :=
  NilZero.string_of_int (Z.to_int z).

(** What [renderTripItem] of the History screen shows of a trip's score:
    the colour of the number and the grade under it. *)
Module History.

Definition renderTripItem (score : Q) : string * string :=
  (getScoreColor score, getScoreGrade score).

End History.

Module TripDetail.

(** The score card: the colour of the score and the grade beside it. *)
Definition scoreCard (score : Q) : string * string :=
  (getScoreColor score, getScoreGrade score).

(** [minutes % 60]: the remainder takes the sign of the dividend. *)
Definition rem60 (minutes : Q) : Q :=
  let q := (minutes / 60)%Q in
  let whole := if Qlt_le_dec q 0 then - Qfloor (- q) else Qfloor q in
  (minutes - 60 * inject_Z whole)%Q.

Definition formatDuration (minutes : Q) : string :=
  if Qlt_le_dec minutes 60
  then (string_of_Z (JS.Math_round minutes) ++ " min")%string
  else
    let hours := Qfloor (minutes / 60) in
    let mins := JS.Math_round (rem60 minutes) in
    (string_of_Z hours ++ "h " ++ string_of_Z mins ++ "m")%string.

End TripDetail.

Module Profile.

Record UserStats := mkUserStats {
  total_trips : Z;
  total_distance : Q;
  average_score : Q;
  best_score : Q
}.

Definition getScoreGrade (score : Q) : string :=
  if Qle_bool 90 score then "Excellent Driver"
  else if Qle_bool 80 score then "Good Driver"
  else if Qle_bool 60 score then "Average Driver"
  else "Needs Improvement".

(** The label under the avatar:
    [stats && stats.average_score > 0 ? getScoreGrade(..) : 'New Driver']. *)
Definition driverLabel (stats : option UserStats) : string :=
  match stats with
  | Some stats =>
      if Qlt_le_dec 0 (average_score stats)
      then getScoreGrade (average_score stats)
      else "New Driver"
  | None => "New Driver"
  end.

(** The colour of the main score card, which is rendered only when
    [stats && stats.total_trips > 0]. *)
Definition mainScoreCard (stats : option UserStats) : option string :=
  match stats with
  | Some stats =>
      if 0 <? total_trips stats
      then Some (getScoreColor (average_score stats))
      else None
  | None => None
  end.

End Profile.

(** ** Saving a finished trip (third revision) *)

(** An entry of the list kept under [TRIPS_STORAGE_KEY]: the fields of the
    request body, the trip's identity and the [synced] flag. *)
Record OfflineTrip := mkOfflineTrip {
  trip_id : string;
  trip_start_time : Z;
  body : Summary;
  synced : bool
}.

(** [saveOfflineTrip]. [stored] is the item read from storage (null when
    absent), [storage_ok] tells whether storage answers; when it throws
    the error is logged and nothing is written. *)
Definition saveOfflineTrip (storage_ok : bool) (now : Z)
    (stored : option (list OfflineTrip))
    (tripData : Offline.TripData) (score : Z) (duration avgSpeed : Q)
  : option (list OfflineTrip) :=
  if storage_ok then
    let trips := match stored with Some existing => existing | None => [] end in
    Some (trips ++ [
      {| trip_id := Offline.id tripData;
         trip_start_time := Offline.startTime tripData;
         body := {|
           end_time := now;
           distance_km := JS.toFixed2_R (Offline.distance tripData);
           duration_minutes := JS.toFixed 2 duration;
           max_speed := Offline.maxSpeed tripData;
           avg_speed := JS.toFixed 1 avgSpeed;
           hard_brakes := Offline.hardBrakes tripData;
           hard_accelerations := Offline.hardAccelerations tripData;
           speeding_count := Offline.speedingCount tripData;
           score := score
         |};
         synced := false |} ])
  else stored.

(** What [stopTracking] leaves behind. *)
Record Stopped := mkStopped {
  screen : Offline.Screen;
  storage : option (list OfflineTrip);
  accepted : option Summary;
  alert : option Today.Feedback
}.

(** [stopTracking] of the third revision with its collaborators:
    [api_url] tells whether [API_URL] is set, [put] is the answer of the
    backend to the request ([None] when [fetch] throws, [Some ok]
    otherwise), [savedAt] the instant read by [saveOfflineTrip]. *)
Definition stopTracking_io (api_url : bool) (put : Summary -> option bool)
    (storage_ok : bool) (endTime savedAt : Z)
    (stored : option (list OfflineTrip)) (s : Offline.Screen) : Stopped :=
  match Offline.tripDataRef s with
  | None =>
      {| screen := s; storage := stored; accepted := None; alert := None |}
  | Some tripData =>
      let durationMs := endTime - Offline.startTime tripData in
      let durationMinutes := (inject_Z durationMs / 60000)%Q in
      let avgSpeed := average (Offline.speedReadings tripData) in
      let score := Offline.trip_score tripData in
      let request := {|
        end_time := endTime;
        distance_km := JS.toFixed2_R (Offline.distance tripData);
        duration_minutes := JS.toFixed 2 durationMinutes;
        max_speed := Offline.maxSpeed tripData;
        avg_speed := JS.toFixed 1 avgSpeed;
        hard_brakes := Offline.hardBrakes tripData;
        hard_accelerations := Offline.hardAccelerations tripData;
        speeding_count := Offline.speedingCount tripData;
        score := score
      |} in
      let locally :=
        saveOfflineTrip storage_ok savedAt stored tripData score
                        durationMinutes avgSpeed in
      let saved :=
        if api_url && negb (Offline.isOffline tripData) then
          match put request with
          | Some true => (Some request, stored)
          | Some false => (None, locally)
          | None => (None, locally)
          end
        else (None, locally) in
      {| screen := {|
           Offline.tripDataRef := None;
           Offline.currentTrip := None;
           Offline.currentSpeed := 0;
           Offline.previousSpeed := 0;
           Offline.previousLocation := None;
           Offline.toasts := Offline.toasts s
         |};
         storage := snd saved;
         accepted := fst saved;
         alert := Some (Today.feedback score) |}
  end.

(** ** Events recounted from a list of speeds *)

(** How many consecutive pairs of [prev :: speeds] pass [test]. *)
Fixpoint count_pairs (test : Z -> Z -> bool) (prev : Z) (speeds : list Z)
  : Z :=
  match speeds with
  | [] => 0
  | v :: rest => (if test prev v then 1 else 0) + count_pairs test v rest
  end.

Definition is_hard_brake (prev v : Z) : bool := 15 <? prev - v.
Definition is_guarded_hard_brake (prev v : Z) : bool :=
  (15 <? prev - v) && (20 <? prev).
Definition is_hard_acceleration (prev v : Z) : bool := 15 <? v - prev.
Definition is_speeding_crossing (prev v : Z) : bool :=
  (130 <? v) && (prev <=? 130).

(** How many toasts of kind [k] were shown. *)
Definition same_toast (a b : Toast) : bool :=
  match a, b with
  | HardBrakeToast, HardBrakeToast => true
  | SpeedingToast, SpeedingToast => true
  | BackgroundPermissionToast, BackgroundPermissionToast => true
  | BackgroundStartToast, BackgroundStartToast => true
  | _, _ => false
  end.

Definition toasts_of (k : Toast) (shown : list Toast) : Z :=
  Z.of_nat (List.length (filter (same_toast k) shown)).

(** ** Relations used in the statements *)

(** The copies that the screen shows agree with the accumulator. *)
Definition Foreground_in_sync (s : Foreground.Screen) : Prop :=
  let t := Foreground.tripData s in
  Foreground.currentTrip s = Some t /\
  Foreground.currentSpeed s = Foreground.previousSpeed s /\
  Foreground.previousSpeed s = last (Foreground.speedReadings t) 0 /\
  Foreground.previousSpeed s <= Foreground.maxSpeed t.

Definition Offline_in_sync (s : Offline.Screen) : Prop :=
  exists t,
    Offline.tripDataRef s = Some t /\
    Offline.currentTrip s = Some t /\
    Offline.currentSpeed s = Offline.previousSpeed s /\
    Offline.previousSpeed s = last (Offline.speedReadings t) 0 /\
    Offline.previousSpeed s <= Offline.maxSpeed t.

(** The screens of the first and of the third revision hold the same
    trip, hard brakes apart, of which the third may hold fewer. *)
Definition same_trip (f : Foreground.Screen) (o : Offline.Screen) : Prop :=
  exists t,
    Offline.tripDataRef o = Some t /\
    let u := Foreground.tripData f in
    Offline.distance t = Foreground.distance u /\
    Offline.maxSpeed t = Foreground.maxSpeed u /\
    Offline.speedReadings t = Foreground.speedReadings u /\
    Offline.hardAccelerations t = Foreground.hardAccelerations u /\
    Offline.speedingCount t = Foreground.speedingCount u /\
    Offline.hardBrakes t <= Foreground.hardBrakes u /\
    Offline.previousSpeed o = Foreground.previousSpeed f /\
    Offline.previousLocation o = Foreground.previousLocation f.

(** A hard brake that the guard of the third revision leaves out. *)
Definition is_low_speed_hard_brake (prev v : Z) : bool :=
  (15 <? prev - v) && (prev <=? 20).

(** ** The distance in double precision *)

(** The distance code as the engine runs it, on IEEE-754 doubles.  The
    arithmetic and [Math.sqrt] are the primitive operations; [Math.sin],
    [Math.cos] and [Math.atan2] belong to the engine's library and are
    taken as a parameter. *)
Module Double.

Import PrimFloat.
Local Open Scope float_scope.

Record Libm := mkLibm {
  Math_sin : float -> float;
  Math_cos : float -> float;
  Math_atan2 : float -> float -> float
}.

(** [Math.PI], the double nearest to pi. *)
Definition Math_PI : float := 0x1.921fb54442d18p+1.

Definition calculateDistance (m : Libm) (lat1 lon1 lat2 lon2 : float)
  : float :=
  let R := 6371 in
  let dLat := (lat2 - lat1) * Math_PI / 180 in
  let dLon := (lon2 - lon1) * Math_PI / 180 in
  let a :=
    Math_sin m (dLat / 2) * Math_sin m (dLat / 2) +
    Math_cos m (lat1 * Math_PI / 180) * Math_cos m (lat2 * Math_PI / 180) *
    Math_sin m (dLon / 2) * Math_sin m (dLon / 2) in
  let c := 2 * Math_atan2 m (sqrt a) (sqrt (1 - a)) in
  R * c.

Record Coords := mkCoords {
  latitude : float;
  longitude : float
}.

(** The distance lines of [handleLocationUpdate]:
    [if (previousLocation.current) tripData.distance += dist]. *)
Definition add_distance (m : Libm) (previousLocation : option Coords)
    (location : Coords) (distance : float) : float :=
  match previousLocation with
  | Some previous =>
      distance +
      calculateDistance m (latitude previous) (longitude previous)
                          (latitude location) (longitude location)
  | None => distance
  end.

(** Two fixes on opposite sides of the Earth:
    (-87.899, 158.963) and (87.899, -21.037), as doubles. *)
Definition antipode_a : Coords :=
  {| latitude := -0x1.5f989374bc6a8p+6;
     longitude := 0x1.3ded0e5604189p+7 |}.

Definition antipode_b : Coords :=
  {| latitude := 0x1.5f989374bc6a8p+6;
     longitude := -0x1.50978d4fdf3b6p+4 |}.

(** The arguments that the sine and the cosine receive at these two
    fixes, 1.5341269592104958 and pi / 2 up to sign, and the doubles
    nearest to their sine and cosine. *)
Definition half_dLat : float := 0x1.88bc8b5db893dp+0.
Definition half_dLon : float := -0x1.921fb54442d18p+0.
Definition sin_half_dLat : float := 0x1.ffa7e32b75425p-1.
Definition sin_half_dLon : float := -1.
Definition cos_lat : float := 0x1.2c54012e6dfcdp-5.

(** A distance already driven, 12.5 km. *)
Definition driven : float := 12.5.

(** A library that answers as the engine's does at these arguments and
    propagates NaN through [Math.atan2]; elsewhere it is arbitrary. *)
Definition table : Libm :=
  {| Math_sin := fun x =>
       if x =? half_dLat then sin_half_dLat
       else if x =? half_dLon then sin_half_dLon
       else x;
     Math_cos := fun x =>
       if abs x =? half_dLat then cos_lat else 1;
     Math_atan2 := fun y x =>
       if is_nan x || is_nan y then nan else y / x |}.

End Double.

(** ** Lemmas on rounding *)

Lemma Qfloor_unique (x : Q) (z : Z) :
  (inject_Z z <= x)%Q -> (x < inject_Z (z + 1))%Q -> Qfloor x = z.
Proof.
  intros Hlo Hhi.
  apply Z.le_antisymm.
  - apply Z.lt_succ_r. unfold Z.succ.
    rewrite Zlt_Qlt.
    eapply Qle_lt_trans; [apply Qfloor_le | exact Hhi].
  - rewrite <- (Qfloor_Z z).
    now apply Qfloor_resp_le.
Qed.

Lemma Math_round_inject_Z (z : Z) : JS.Math_round (inject_Z z) = z.
Proof.
  unfold JS.Math_round.
  apply Qfloor_unique.
  - rewrite <- (Qplus_0_r (inject_Z z)) at 1.
    apply Qplus_le_r. discriminate.
  - rewrite inject_Z_plus. apply Qplus_lt_r. reflexivity.
Qed.

Lemma Math_round_mono (x y : Q) :
  (x <= y)%Q -> JS.Math_round x <= JS.Math_round y.
Proof.
  intros H. unfold JS.Math_round.
  apply Qfloor_resp_le. now apply Qplus_le_l.
Qed.

Lemma Math_round_0 : JS.Math_round 0 = 0.
Proof. reflexivity. Qed.

Lemma speed_of_nonneg (raw : option Q) : 0 <= speed_of raw.
Proof. unfold speed_of, JS.Math_max. lia. Qed.

Lemma Math_round_comp (x y : Q) :
  (x == y)%Q -> JS.Math_round x = JS.Math_round y.
Proof.
  intros E. unfold JS.Math_round.
  apply Qfloor_comp. now rewrite E.
Qed.

Lemma Math_round_clamp (x : Q) :
  JS.Math_round (Qmax 0 x) = Z.max 0 (JS.Math_round x).
Proof.
  destruct (Qlt_le_dec x 0) as [Hneg | Hpos].
  - apply Qlt_le_weak in Hneg.
    rewrite (Math_round_comp _ _ (Q.max_l 0 x Hneg)).
    pose proof (Math_round_mono _ _ Hneg) as H.
    rewrite Math_round_0 in *. lia.
  - rewrite (Math_round_comp _ _ (Q.max_r 0 x Hpos)).
    pose proof (Math_round_mono _ _ Hpos) as H.
    rewrite Math_round_0 in H. lia.
Qed.

(** C6: rounding first and clamping second, as [handleLocationUpdate]
    does, gives the same integer as clamping first and rounding second,
    whatever the product; so the speed used equals
    [round(max(0, raw * 3.6))] for every raw reading, absent ones
    included, and it is 0 when the reading is absent and when it is not
    positive. *)
Theorem speed_conversion_agrees :
  (forall x : Q,
     JS.Math_max 0 (JS.Math_round x) = JS.Math_round (Qmax 0 x)) /\
  (forall raw : option Q, speed_of raw = spec_speedKmh raw) /\
  speed_of None = 0 /\
  (forall q : Q, (q <= 0)%Q -> speed_of (Some q) = 0).
Proof.
  split; [| split; [| split; [reflexivity |]]].
  - intros x. unfold JS.Math_max. now rewrite Math_round_clamp.
  - intros raw. unfold speed_of, spec_speedKmh, JS.Math_max.
    rewrite Math_round_clamp. destruct raw; reflexivity.
  - intros q Hq.
    unfold speed_of, speedKmh, JS.Math_max, JS.or_zero.
    assert (H : JS.Math_round (q * (36 # 10)) <= JS.Math_round 0).
    { apply Math_round_mono.
      setoid_replace 0%Q with (0 * (36 # 10))%Q by reflexivity.
      apply Qmult_le_compat_r; [assumption | discriminate]. }
    rewrite Math_round_0 in H. lia.
Qed.

(** A reading of -2.5 m/s, as some receivers report when the speed is
    invalid, is recorded as 0 km/h. *)
Lemma speed_conversion_agrees_witness :
  speed_of (Some (-5 # 2)%Q) = 0.
Proof.
  apply (proj2 (proj2 (proj2 speed_conversion_agrees))). discriminate.
Defined.

(** ** Facts on the geodesy *)

Lemma atan_nonneg (t : R) : (0 <= t)%R -> (0 <= atan t)%R.
Proof.
  intros [Hpos | <-].
  - left. rewrite <- atan_0. now apply atan_increasing.
  - rewrite atan_0. apply Rle_refl.
Qed.

(** On the closed first quadrant [Math.atan2] is not negative. *)
Lemma Math_atan2_nonneg (y x : R) :
  (0 <= y)%R -> (0 <= x)%R -> (0 <= JS.Math_atan2 y x)%R.
Proof.
  intros Hy Hx. unfold JS.Math_atan2.
  destruct (Rlt_dec 0 x) as [Hx0 | _].
  - apply atan_nonneg. unfold Rdiv.
    apply Rmult_le_pos; [assumption |].
    left. now apply Rinv_0_lt_compat.
  - destruct (Rlt_dec x 0) as [Hneg | _]; [lra |].
    destruct (Rlt_dec 0 y) as [_ | _].
    + pose proof PI_RGT_0. lra.
    + destruct (Rlt_dec y 0); lra.
Qed.

Lemma calculateDistance_nonneg (lat1 lon1 lat2 lon2 : R) :
  (0 <= calculateDistance lat1 lon1 lat2 lon2)%R.
Proof.
  unfold calculateDistance. cbv zeta.
  match goal with
  | |- (0 <= 6371 * (2 * JS.Math_atan2 ?y ?x))%R =>
      pose proof (Math_atan2_nonneg y x (sqrt_pos _) (sqrt_pos _))
  end.
  lra.
Qed.

(** C7: the great-circle distance is symmetric in its two points. *)
Theorem calculateDistance_sym (lat1 lon1 lat2 lon2 : R) :
  calculateDistance lat1 lon1 lat2 lon2 =
  calculateDistance lat2 lon2 lat1 lon1.
Proof.
  unfold calculateDistance. cbv zeta.
  replace ((lat1 - lat2) * PI / 180 / 2)%R
    with (- ((lat2 - lat1) * PI / 180 / 2))%R by lra.
  replace ((lon1 - lon2) * PI / 180 / 2)%R
    with (- ((lon2 - lon1) * PI / 180 / 2))%R by lra.
  rewrite !sin_neg.
  set (sLat := sin ((lat2 - lat1) * PI / 180 / 2)).
  set (sLon := sin ((lon2 - lon1) * PI / 180 / 2)).
  set (c1 := cos (lat1 * PI / 180)).
  set (c2 := cos (lat2 * PI / 180)).
  replace (- sLat * - sLat + c2 * c1 * - sLon * - sLon)%R
    with (sLat * sLat + c1 * c2 * sLon * sLon)%R by ring.
  reflexivity.
Qed.

(** Symmetry needs no exact arithmetic: it follows from sign laws that
    rounded double arithmetic keeps (subtraction is antisymmetric,
    negation moves through products and quotients, multiplication
    commutes) and from the sine being odd. *)
Section SymmetryFromSignLaws.

Variable F : Type.
Variable A : Arith F.

Hypothesis sub_antisym : forall a b, sub A a b = neg A (sub A b a).
Hypothesis mul_comm : forall a b, mul A a b = mul A b a.
Hypothesis mul_neg_l : forall a b, mul A (neg A a) b = neg A (mul A a b).
Hypothesis mul_neg_neg : forall a b, mul A (neg A a) (neg A b) = mul A a b.
Hypothesis div_neg_l : forall a b, div A (neg A a) b = neg A (div A a b).
Hypothesis sin_odd : forall a, sin_ A (neg A a) = neg A (sin_ A a).

Lemma mul_neg_r a b : mul A a (neg A b) = neg A (mul A a b).
Proof. now rewrite mul_comm, mul_neg_l, mul_comm. Qed.

Lemma calculateDistance_on_sym lat1 lon1 lat2 lon2 :
  calculateDistance_on A lat1 lon1 lat2 lon2 =
  calculateDistance_on A lat2 lon2 lat1 lon1.
Proof.
  unfold calculateDistance_on. cbv zeta.
  rewrite (sub_antisym lat1 lat2), (sub_antisym lon1 lon2).
  rewrite !mul_neg_l, !div_neg_l, !sin_odd.
  rewrite (mul_comm (cos_ A (div A (mul A lat2 (pi A)) (lit A 180)))).
  set (cc := mul A (cos_ A _) (cos_ A _)).
  rewrite (mul_neg_r cc), !mul_neg_neg.
  reflexivity.
Qed.

End SymmetryFromSignLaws.

Lemma calculateDistance_on_real (lat1 lon1 lat2 lon2 : R) :
  calculateDistance_on real_arith lat1 lon1 lat2 lon2 =
  calculateDistance lat1 lon1 lat2 lon2.
Proof. reflexivity. Qed.

(** The reals obey the sign laws. *)
Lemma calculateDistance_on_sym_real (lat1 lon1 lat2 lon2 : R) :
  calculateDistance_on real_arith lat1 lon1 lat2 lon2 =
  calculateDistance_on real_arith lat2 lon2 lat1 lon1.
Proof.
  apply calculateDistance_on_sym; simpl; intros.
  - ring.
  - ring.
  - ring.
  - ring.
  - unfold Rdiv. ring.
  - apply sin_neg.
Defined.

(** ** One update *)

Lemma speed_at_nonneg (location : Location.LocationObject) :
  0 <= speed_at location.
Proof. apply speed_of_nonneg. Qed.

Lemma speed_at_fix_at (kmh : Z) : speed_at (fix_at kmh) = Z.max 0 kmh.
Proof.
  unfold speed_at, fix_at, speed_of, speedKmh, JS.Math_max. simpl.
  rewrite (Math_round_comp _ (inject_Z kmh)).
  - now rewrite Math_round_inject_Z.
  - rewrite <- Qmult_assoc.
    setoid_replace ((10 # 36) * (36 # 10))%Q with 1%Q by reflexivity.
    apply Qmult_1_r.
Qed.

(** C2, as the code has it: in the first two revisions an update adds
    exactly 1 to [hardBrakes] when the previous speed exceeds the new one
    by more than 15 km/h and leaves it alone otherwise; in the third
    revision the previous speed must also exceed 20 km/h. *)
Theorem hard_brake_step :
  (forall location s,
     let s' := Foreground.handleLocationUpdate location s in
     let hb := Foreground.hardBrakes (Foreground.tripData s) in
     let hb' := Foreground.hardBrakes (Foreground.tripData s') in
     let delta := Foreground.previousSpeed s - speed_at location in
     (15 < delta -> hb' = hb + 1) /\ (delta <= 15 -> hb' = hb)) /\
  (forall location t cur spd prev ploc ts,
     let s := Offline.mkScreen (Some t) cur spd prev ploc ts in
     let s' := Offline.handleLocationUpdate location s in
     let hb' := option_map Offline.hardBrakes (Offline.tripDataRef s') in
     let delta := prev - speed_at location in
     (15 < delta /\ 20 < prev -> hb' = Some (Offline.hardBrakes t + 1)) /\
     (delta <= 15 \/ prev <= 20 -> hb' = Some (Offline.hardBrakes t))).
Proof.
  split.
  - intros location s s' hb hb' delta.
    subst s' hb hb' delta. simpl. fold (speed_at location).
    destruct (Z.ltb_spec 15 (Foreground.previousSpeed s - speed_at location));
      split; intros; lia || reflexivity.
  - intros location t cur spd prev ploc ts s s' hb' delta.
    subst s s' hb' delta. simpl. fold (speed_at location).
    destruct (Z.ltb_spec 15 (prev - speed_at location));
      destruct (Z.ltb_spec 20 prev); simpl;
      split; intros; lia || reflexivity.
Qed.

(** Braking from 100 to 80 km/h counts as one hard brake in the first
    revision. *)
Lemma hard_brake_step_witness :
  let s := Foreground.handleLocationUpdate (fix_at 100)
             (Foreground.startTracking "trip" 0) in
  Foreground.hardBrakes
    (Foreground.tripData (Foreground.handleLocationUpdate (fix_at 80) s)) =
  Foreground.hardBrakes (Foreground.tripData s) + 1.
Proof.
  intros s.
  apply (proj1 (proj1 hard_brake_step (fix_at 80) s)).
  subst s. vm_compute. reflexivity.
Defined.

(** C2, as stated, fails on the third revision: after a fix at 20 km/h,
    braking to a standstill is a drop of 20 km/h, more than 15, yet
    [hardBrakes] is not incremented. *)
Lemma hard_brake_counterexample :
  let s := Offline.handleLocationUpdate (fix_at 20)
             (Offline.startTracking Offline.all_granted "trip" true 0) in
  let s' := Offline.handleLocationUpdate (fix_at 0) s in
  15 < Offline.previousSpeed s - speed_at (fix_at 0) /\
  option_map Offline.hardBrakes (Offline.tripDataRef s) = Some 0 /\
  option_map Offline.hardBrakes (Offline.tripDataRef s') = Some 0 /\
  option_map Offline.hardBrakes (Offline.tripDataRef s') <>
  option_map (fun t => Offline.hardBrakes t + 1) (Offline.tripDataRef s).
Proof.
  simpl. repeat split; try reflexivity. discriminate.
Qed.

(** C3: an update adds exactly 1 to [speedingCount] if and only if the
    new speed is above 130 km/h and the previous one was not, and adds
    nothing otherwise; fed to any accumulator, the fixes 125, 135, 140,
    120 km/h add exactly 1. *)
Theorem speeding_step :
  (forall location s,
     let s' := Foreground.handleLocationUpdate location s in
     let sc := Foreground.speedingCount (Foreground.tripData s) in
     let sc' := Foreground.speedingCount (Foreground.tripData s') in
     (sc' = sc + 1 <->
      130 < speed_at location /\ Foreground.previousSpeed s <= 130) /\
     (sc' = sc \/ sc' = sc + 1)) /\
  (forall location t cur spd prev ploc ts,
     let s := Offline.mkScreen (Some t) cur spd prev ploc ts in
     let s' := Offline.handleLocationUpdate location s in
     let sc := Offline.speedingCount t in
     let sc' := option_map Offline.speedingCount (Offline.tripDataRef s') in
     (sc' = Some (sc + 1) <-> 130 < speed_at location /\ prev <= 130) /\
     (sc' = Some sc \/ sc' = Some (sc + 1))) /\
  (forall s,
     Foreground.speedingCount
       (Foreground.tripData
          (Foreground.feed [fix_at 125; fix_at 135; fix_at 140; fix_at 120] s))
     = Foreground.speedingCount (Foreground.tripData s) + 1) /\
  (forall t cur spd prev ploc ts,
     option_map Offline.speedingCount
       (Offline.tripDataRef
          (Offline.feed [fix_at 125; fix_at 135; fix_at 140; fix_at 120]
             (Offline.mkScreen (Some t) cur spd prev ploc ts)))
     = Some (Offline.speedingCount t + 1)).
Proof.
  split; [| split; [| split]].
  - intros location s s' sc sc'. subst s' sc sc'.
    simpl. fold (speed_at location).
    destruct (Z.ltb_spec 130 (speed_at location));
      destruct (Z.leb_spec (Foreground.previousSpeed s) 130); simpl;
      (split; [split; intros; lia | lia]).
  - intros location t cur spd prev ploc ts s s' sc sc'. subst s s' sc sc'.
    simpl. fold (speed_at location).
    destruct (Z.ltb_spec 130 (speed_at location));
      destruct (Z.leb_spec prev 130); simpl;
      (split; [split; [intros E; try inversion E; lia | intros; f_equal; lia] | auto]).
  - intros s. simpl. reflexivity.
  - intros. simpl. reflexivity.
Qed.

(** ** Monotonicity of the accumulated quantities *)

Lemma Foreground_trip_le_refl (t : Foreground.TripData) :
  Foreground.trip_le t t.
Proof. unfold Foreground.trip_le. repeat split; (lia || apply Rle_refl). Qed.

Lemma Foreground_trip_le_trans (t1 t2 t3 : Foreground.TripData) :
  Foreground.trip_le t1 t2 -> Foreground.trip_le t2 t3 ->
  Foreground.trip_le t1 t3.
Proof.
  unfold Foreground.trip_le.
  intros (Hd & ? & ? & ? & ?) (Hd' & ? & ? & ? & ?).
  repeat split; try lia. now apply Rle_trans with (2 := Hd').
Qed.

Lemma Offline_trip_le_refl (t : Offline.TripData) : Offline.trip_le t t.
Proof. unfold Offline.trip_le. repeat split; (lia || apply Rle_refl). Qed.

Lemma Offline_trip_le_trans (t1 t2 t3 : Offline.TripData) :
  Offline.trip_le t1 t2 -> Offline.trip_le t2 t3 -> Offline.trip_le t1 t3.
Proof.
  unfold Offline.trip_le.
  intros (Hd & ? & ? & ? & ?) (Hd' & ? & ? & ? & ?).
  repeat split; try lia. now apply Rle_trans with (2 := Hd').
Qed.

(** Closes the goals on one counter after the step has been unfolded. *)
Ltac counter_cases :=
  repeat match goal with
         | |- context [Z.ltb ?a ?b] => destruct (Z.ltb_spec a b)
         | |- context [Z.leb ?a ?b] => destruct (Z.leb_spec a b)
         end;
  simpl; lia.

Lemma Foreground_step_le location s :
  Foreground.trip_le (Foreground.tripData s)
    (Foreground.tripData (Foreground.handleLocationUpdate location s)).
Proof.
  unfold Foreground.trip_le. simpl. fold (speed_at location).
  split; [| repeat split; counter_cases].
  destruct (Foreground.previousLocation s) as [previous |].
  - match goal with
    | |- (_ <= _ + calculateDistance ?a ?b ?c ?d)%R =>
        pose proof (calculateDistance_nonneg a b c d)
    end.
    lra.
  - apply Rle_refl.
Qed.

Lemma Offline_step_le location t cur spd prev ploc ts :
  exists t',
    Offline.tripDataRef
      (Offline.handleLocationUpdate location
         (Offline.mkScreen (Some t) cur spd prev ploc ts)) = Some t' /\
    Offline.trip_le t t'.
Proof.
  eexists. split; [reflexivity |].
  unfold Offline.trip_le. simpl. fold (speed_at location).
  split; [| repeat split; counter_cases].
  destruct ploc as [previous |].
  - match goal with
    | |- (_ <= _ + calculateDistance ?a ?b ?c ?d)%R =>
        pose proof (calculateDistance_nonneg a b c d)
    end.
    lra.
  - apply Rle_refl.
Qed.

Lemma Foreground_feed_le locations : forall s,
  Foreground.trip_le (Foreground.tripData s)
    (Foreground.tripData (Foreground.feed locations s)).
Proof.
  induction locations as [| location rest IH]; intros s; simpl.
  - apply Foreground_trip_le_refl.
  - eapply Foreground_trip_le_trans; [apply Foreground_step_le | apply IH].
Qed.

Lemma Offline_feed_le locations : forall t cur spd prev ploc ts,
  exists t',
    Offline.tripDataRef
      (Offline.feed locations
         (Offline.mkScreen (Some t) cur spd prev ploc ts)) = Some t' /\
    Offline.trip_le t t'.
Proof.
  induction locations as [| location rest IH]; intros t cur spd prev ploc ts.
  - exists t. split; [reflexivity | apply Offline_trip_le_refl].
  - destruct (Offline_step_le location t cur spd prev ploc ts)
      as (t1 & E1 & L1).
    change (Offline.feed (location :: rest) ?s)
      with (Offline.feed rest (Offline.handleLocationUpdate location s)).
    destruct (Offline.handleLocationUpdate location
                (Offline.mkScreen (Some t) cur spd prev ploc ts))
      as [ref cur' spd' prev' ploc' ts'].
    simpl in E1. subst ref.
    destruct (IH t1 cur' spd' prev' ploc' ts') as (t2 & E2 & L2).
    exists t2. split; [exact E2 |].
    now apply Offline_trip_le_trans with t1.
Qed.

(** With exact arithmetic for the distance, in both revisions every
    update leaves [distance], [maxSpeed], [hardBrakes],
    [hardAccelerations] and [speedingCount] where they were or higher, and
    so does every run of updates.  For the four integer fields this is the
    code's own behaviour; for the distance in double precision see
    [Double] below. *)
Theorem accumulated_non_decreasing :
  (forall location s,
     Foreground.trip_le (Foreground.tripData s)
       (Foreground.tripData (Foreground.handleLocationUpdate location s))) /\
  (forall locations s,
     Foreground.trip_le (Foreground.tripData s)
       (Foreground.tripData (Foreground.feed locations s))) /\
  (forall location t cur spd prev ploc ts,
     exists t',
       Offline.tripDataRef
         (Offline.handleLocationUpdate location
            (Offline.mkScreen (Some t) cur spd prev ploc ts)) = Some t' /\
       Offline.trip_le t t') /\
  (forall locations t cur spd prev ploc ts,
     exists t',
       Offline.tripDataRef
         (Offline.feed locations
            (Offline.mkScreen (Some t) cur spd prev ploc ts)) = Some t' /\
       Offline.trip_le t t').
Proof.
  split; [| split; [| split]].
  - apply Foreground_step_le.
  - intros. apply Foreground_feed_le.
  - apply Offline_step_le.
  - intros. apply Offline_feed_le.
Qed.

(** ** The distance in double precision *)

Lemma is_nan_SF (x : PrimFloat.float) :
  PrimFloat.is_nan x = true -> FloatOps.Prim2SF x = SpecFloat.S754_nan.
Proof.
  unfold PrimFloat.is_nan. rewrite FloatAxioms.eqb_spec.
  unfold SpecFloat.SFeqb, SpecFloat.SFcompare.
  destruct (FloatOps.Prim2SF x) as [s | s | | s mx ex]; try reflexivity.
  - discriminate.
  - destruct s; discriminate.
  - rewrite Z.compare_refl, Pos.compare_cont_refl.
    destruct s; discriminate.
Qed.

Lemma SF_is_nan (x : PrimFloat.float) :
  FloatOps.Prim2SF x = SpecFloat.S754_nan -> PrimFloat.is_nan x = true.
Proof.
  intros H. unfold PrimFloat.is_nan.
  rewrite FloatAxioms.eqb_spec, H. reflexivity.
Qed.

Lemma add_nan_r (x y : PrimFloat.float) :
  PrimFloat.is_nan y = true -> PrimFloat.is_nan (PrimFloat.add x y) = true.
Proof.
  intros H. apply SF_is_nan.
  rewrite FloatAxioms.add_spec, (is_nan_SF y H).
  destruct (FloatOps.Prim2SF x); reflexivity.
Qed.

Lemma add_nan_l (x y : PrimFloat.float) :
  PrimFloat.is_nan x = true -> PrimFloat.is_nan (PrimFloat.add x y) = true.
Proof.
  intros H. apply SF_is_nan.
  rewrite FloatAxioms.add_spec, (is_nan_SF x H). reflexivity.
Qed.

Lemma mul_nan_r (x y : PrimFloat.float) :
  PrimFloat.is_nan y = true -> PrimFloat.is_nan (PrimFloat.mul x y) = true.
Proof.
  intros H. apply SF_is_nan.
  rewrite FloatAxioms.mul_spec, (is_nan_SF y H).
  destruct (FloatOps.Prim2SF x); reflexivity.
Qed.

Lemma leb_nan_r (x y : PrimFloat.float) :
  PrimFloat.is_nan y = true -> PrimFloat.leb x y = false.
Proof.
  intros H. rewrite FloatAxioms.leb_spec, (is_nan_SF y H).
  unfold SpecFloat.SFleb, SpecFloat.SFcompare.
  destruct (FloatOps.Prim2SF x); reflexivity.
Qed.

(** C4, where the code breaks it.  For the two fixes (-87.899, 158.963)
    and (87.899, -21.037) the haversine term rounds to
    1.0000000000000002, [Math.sqrt (1 - a)] is NaN and so is the distance
    returned; added to the distance of the trip it makes that NaN too,
    whatever it was: the new distance is not at or above the old one, and
    it stays NaN for every fix that follows.  The sine and the cosine are
    the engine's; their values at the arguments that occur are the
    hypotheses. *)
Theorem distance_lost_at_antipodal_fixes (m : Double.Libm) :
  Double.Math_sin m Double.half_dLat = Double.sin_half_dLat ->
  Double.Math_sin m Double.half_dLon = Double.sin_half_dLon ->
  Double.Math_cos m (PrimFloat.opp Double.half_dLat) = Double.cos_lat ->
  Double.Math_cos m Double.half_dLat = Double.cos_lat ->
  (forall y x,
     PrimFloat.is_nan x = true ->
     PrimFloat.is_nan (Double.Math_atan2 m y x) = true) ->
  forall distance,
    let distance' :=
      Double.add_distance m (Some Double.antipode_a) Double.antipode_b
                          distance in
    PrimFloat.is_nan distance' = true /\
    PrimFloat.leb distance distance' = false /\
    forall later,
      PrimFloat.is_nan
        (Double.add_distance m (Some Double.antipode_b) later distance')
      = true.
Proof.
  intros Hsin1 Hsin2 Hcos1 Hcos2 Hatan distance distance'.
  assert (N : PrimFloat.is_nan
                (Double.calculateDistance m
                   (Double.latitude Double.antipode_a)
                   (Double.longitude Double.antipode_a)
                   (Double.latitude Double.antipode_b)
                   (Double.longitude Double.antipode_b)) = true).
  { unfold Double.calculateDistance. cbv zeta.
    cbn [Double.latitude Double.longitude
         Double.antipode_a Double.antipode_b].
    match goal with
    | |- context [Double.Math_sin m ?x] =>
        change x with Double.half_dLat
    end.
    match goal with
    | |- context [Double.Math_sin m ?x] =>
        lazymatch x with
        | Double.half_dLat => fail
        | _ => change x with Double.half_dLon
        end
    end.
    match goal with
    | |- context [Double.Math_cos m ?x] =>
        change x with (PrimFloat.opp Double.half_dLat)
    end.
    match goal with
    | |- context [Double.Math_cos m ?x] =>
        lazymatch x with
        | PrimFloat.opp Double.half_dLat => fail
        | _ => change x with Double.half_dLat
        end
    end.
    rewrite Hsin1, Hsin2, Hcos1, Hcos2.
    apply mul_nan_r, mul_nan_r, Hatan. reflexivity. }
  assert (D : PrimFloat.is_nan distance' = true)
    by (apply add_nan_r; exact N).
  split; [exact D |]. split; [apply leb_nan_r; exact D |].
  intros later. apply add_nan_l. exact D.
Qed.

(** With the table library: 12.5 km already driven are lost. *)
Lemma distance_lost_at_antipodal_fixes_witness :
  PrimFloat.is_nan
    (Double.add_distance Double.table (Some Double.antipode_a)
       Double.antipode_b Double.driven) = true.
Proof.
  apply (distance_lost_at_antipodal_fixes Double.table).
  - reflexivity.
  - reflexivity.
  - reflexivity.
  - reflexivity.
  - intros y x H. cbn [Double.Math_atan2 Double.table].
    rewrite H. reflexivity.
Defined.

(** ** The tracking invariant *)

Lemma Foreground_tracking_start tripId now :
  Foreground.tracking (Foreground.startTracking tripId now).
Proof.
  unfold Foreground.tracking. simpl.
  repeat split; try lia. constructor.
Qed.

Lemma Foreground_tracking_step location s :
  Foreground.tracking s ->
  Foreground.tracking (Foreground.handleLocationUpdate location s).
Proof.
  unfold Foreground.tracking.
  intros (_ & Hprev & Hb & Ha & Hs & Hall & Hmax).
  simpl. fold (speed_at location).
  pose proof (speed_at_nonneg location) as Hsp.
  split; [reflexivity |].
  split; [assumption |].
  split; [counter_cases |].
  split; [counter_cases |].
  split; [counter_cases |].
  split.
  - apply Forall_app. split; [assumption | now constructor].
  - rewrite fold_left_app. simpl. rewrite <- Hmax. counter_cases.
Qed.

Lemma Foreground_tracking_feed locations : forall s,
  Foreground.tracking s ->
  Foreground.tracking (Foreground.feed locations s).
Proof.
  induction locations as [| location rest IH]; intros s Hs; simpl.
  - exact Hs.
  - apply IH. now apply Foreground_tracking_step.
Qed.

Lemma Offline_tracking_start device tripId offline now :
  Offline.tracking (Offline.startTracking device tripId offline now).
Proof.
  unfold Offline.tracking. eexists. simpl.
  split; [reflexivity |]. simpl.
  repeat split; try lia. constructor.
Qed.

Lemma Offline_tracking_step location s :
  Offline.tracking s ->
  Offline.tracking (Offline.handleLocationUpdate location s).
Proof.
  unfold Offline.tracking.
  intros (t & Eref & Hprev & Hb & Ha & Hs & Hall & Hmax).
  unfold Offline.handleLocationUpdate. rewrite Eref.
  eexists. split; [reflexivity |].
  simpl. fold (speed_at location).
  pose proof (speed_at_nonneg location) as Hsp.
  split; [assumption |].
  split; [counter_cases |].
  split; [counter_cases |].
  split; [counter_cases |].
  split.
  - apply Forall_app. split; [assumption | now constructor].
  - rewrite fold_left_app. simpl. rewrite <- Hmax. counter_cases.
Qed.

Lemma Offline_tracking_feed locations : forall s,
  Offline.tracking s -> Offline.tracking (Offline.feed locations s).
Proof.
  induction locations as [| location rest IH]; intros s Hs; simpl.
  - exact Hs.
  - apply IH. now apply Offline_tracking_step.
Qed.

(** ** The recorded speeds *)

Lemma Foreground_readings_feed locations : forall s,
  Foreground.speedReadings (Foreground.tripData (Foreground.feed locations s))
  = Foreground.speedReadings (Foreground.tripData s)
    ++ map speed_at locations.
Proof.
  induction locations as [| location rest IH]; intros s; simpl.
  - now rewrite app_nil_r.
  - rewrite IH. simpl. now rewrite <- app_assoc.
Qed.

Lemma Offline_readings_step location s t :
  Offline.tripDataRef s = Some t ->
  exists t',
    Offline.tripDataRef (Offline.handleLocationUpdate location s) = Some t' /\
    Offline.speedReadings t' = Offline.speedReadings t ++ [speed_at location].
Proof.
  intros Eref. unfold Offline.handleLocationUpdate. rewrite Eref.
  eexists. split; reflexivity.
Qed.

Lemma Offline_readings_feed locations : forall s t,
  Offline.tripDataRef s = Some t ->
  exists t',
    Offline.tripDataRef (Offline.feed locations s) = Some t' /\
    Offline.speedReadings t' = Offline.speedReadings t ++ map speed_at locations.
Proof.
  induction locations as [| location rest IH]; intros s t Eref; simpl.
  - exists t. split; [assumption | now rewrite app_nil_r].
  - destruct (Offline_readings_step location s t Eref) as (t1 & E1 & R1).
    destruct (IH _ _ E1) as (t' & E' & R').
    exists t'. split; [exact E' |].
    rewrite R', R1, <- app_assoc. reflexivity.
Qed.

(** C8: after any run of updates on a fresh accumulator [speedReadings]
    holds one reading per update, in order of arrival; its length is the
    number of updates. *)
Theorem readings_length :
  (forall tripId now locations,
     let t := Foreground.tripData
                (Foreground.feed locations
                   (Foreground.startTracking tripId now)) in
     Foreground.speedReadings t = map speed_at locations /\
     List.length (Foreground.speedReadings t) = List.length locations) /\
  (forall device tripId offline now locations,
     exists t,
       Offline.tripDataRef
         (Offline.feed locations
            (Offline.startTracking device tripId offline now)) = Some t /\
       Offline.speedReadings t = map speed_at locations /\
       List.length (Offline.speedReadings t) = List.length locations).
Proof.
  split.
  - intros tripId now locations t. subst t.
    rewrite Foreground_readings_feed. simpl.
    split; [reflexivity | apply length_map].
  - intros device tripId offline now locations.
    destruct (Offline_readings_feed locations
                (Offline.startTracking device tripId offline now) _ eq_refl)
      as (t & E & R).
    exists t. simpl in R. rewrite R.
    repeat split; [exact E | apply length_map].
Qed.

(** ** The running maximum *)

Lemma fold_max_ge (l : list Z) : forall a,
  a <= fold_left Z.max l a /\ Forall (fun y => y <= fold_left Z.max l a) l.
Proof.
  induction l as [| x l IH]; intros a; simpl.
  - split; [lia | constructor].
  - destruct (IH (Z.max a x)) as [Hge Hall].
    split; [lia |].
    constructor; [lia | exact Hall].
Qed.

Lemma fold_max_In (l : list Z) : forall a,
  fold_left Z.max l a = a \/ In (fold_left Z.max l a) l.
Proof.
  induction l as [| x l IH]; intros a; simpl.
  - now left.
  - destruct (IH (Z.max a x)) as [E | HIn].
    + rewrite E. destruct (Z.max_spec a x) as [[_ ->] | [_ ->]]; auto.
    + auto.
Qed.

(** C9: after any run of updates on a fresh accumulator [maxSpeed] is 0
    when no speed was recorded and otherwise the largest recorded speed:
    it is one of the readings and none exceeds it. *)
Theorem maxSpeed_is_maximum :
  (forall tripId now locations,
     let t := Foreground.tripData
                (Foreground.feed locations
                   (Foreground.startTracking tripId now)) in
     match Foreground.speedReadings t with
     | [] => Foreground.maxSpeed t = 0
     | x :: rest =>
         Foreground.maxSpeed t = list_maximum x rest /\
         In (Foreground.maxSpeed t) (x :: rest) /\
         Forall (fun y => y <= Foreground.maxSpeed t) (x :: rest)
     end) /\
  (forall device tripId offline now locations,
     exists t,
       Offline.tripDataRef
         (Offline.feed locations
            (Offline.startTracking device tripId offline now)) = Some t /\
       match Offline.speedReadings t with
       | [] => Offline.maxSpeed t = 0
       | x :: rest =>
           Offline.maxSpeed t = list_maximum x rest /\
           In (Offline.maxSpeed t) (x :: rest) /\
           Forall (fun y => y <= Offline.maxSpeed t) (x :: rest)
       end).
Proof.
  assert (K : forall m l,
             Forall (fun v => 0 <= v) l -> m = fold_left Z.max l 0 ->
             match l with
             | [] => m = 0
             | x :: rest =>
                 m = list_maximum x rest /\ In m (x :: rest) /\
                 Forall (fun y => y <= m) (x :: rest)
             end).
  { intros m [| x rest] Hall ->; [reflexivity |].
    inversion Hall as [| ? ? Hx _]; subst.
    unfold list_maximum. simpl.
    replace (Z.max 0 x) with x by lia.
    split; [reflexivity |].
    destruct (fold_max_ge rest x) as [Hge Hle].
    split.
    - destruct (fold_max_In rest x) as [-> | HIn]; [now left | now right].
    - now constructor. }
  split.
  - intros tripId now locations t.
    destruct (Foreground_tracking_feed locations _
                (Foreground_tracking_start tripId now))
      as (_ & _ & _ & _ & _ & Hall & Hmax).
    now apply K.
  - intros device tripId offline now locations.
    destruct (Offline_tracking_feed locations _
                (Offline_tracking_start device tripId offline now))
      as (t & E & _ & _ & _ & _ & Hall & Hmax).
    exists t. split; [exact E | now apply K].
Qed.

(** ** Averages and presentation rounding *)

Lemma sum_readings_nonneg (l : list Z) :
  Forall (fun v => 0 <= v) l -> 0 <= sum_readings l.
Proof.
  unfold sum_readings.
  assert (G : forall a, 0 <= a -> Forall (fun v => 0 <= v) l ->
                        0 <= fold_left (fun a b => a + b) l a).
  { induction l as [| x l IH]; intros a Ha Hall; simpl; [assumption |].
    inversion Hall; subst. apply IH; [lia | assumption]. }
  now apply G.
Qed.

Lemma inject_Z_nonneg (z : Z) : 0 <= z -> (0 <= inject_Z z)%Q.
Proof.
  intros Hz. change 0%Q with (inject_Z 0). now rewrite <- Zle_Qle.
Qed.

Lemma average_nonneg (l : list Z) :
  Forall (fun v => 0 <= v) l -> (0 <= average l)%Q.
Proof.
  intros Hall. unfold average.
  destruct (0 <? Z.of_nat (List.length l)); [| apply Qle_refl].
  apply Qmult_le_0_compat.
  - apply inject_Z_nonneg. now apply sum_readings_nonneg.
  - apply Qinv_le_0_compat. apply inject_Z_nonneg. lia.
Qed.

Lemma toFixed_nonneg (d : nat) (x : Q) :
  (0 <= x)%Q -> (0 <= JS.toFixed d x)%Q.
Proof.
  intros Hx. unfold JS.toFixed.
  destruct (Qlt_le_dec x 0) as [Hneg | _].
  - exfalso. exact (Qlt_not_le _ _ Hneg Hx).
  - assert (Hp : (0 <= inject_Z (10 ^ Z.of_nat d))%Q)
      by (apply inject_Z_nonneg, Z.pow_nonneg; lia).
    apply Qmult_le_0_compat; [| now apply Qinv_le_0_compat].
    apply inject_Z_nonneg.
    rewrite <- (Qfloor_Z 0). apply Qfloor_resp_le.
    setoid_replace (inject_Z 0) with (0 + 0)%Q by reflexivity.
    apply Qplus_le_compat; [| discriminate].
    now apply Qmult_le_0_compat.
Qed.

Lemma toFixed2_R_0 : JS.toFixed2_R 0 = 0%R.
Proof.
  unfold JS.toFixed2_R, JS.Rfloor.
  destruct (Rlt_dec 0 0) as [H | _]; [lra |].
  rewrite <- (Int_part_spec (0 * 100 + / 2) 0) by (simpl; lra).
  lra.
Qed.

(** C10: after any run of updates on a fresh accumulator every recorded
    speed, [maxSpeed] and [previousSpeed] are integers not below 0, and so
    the average speed computed and stored by [stopTracking] is not below
    0 either. *)
Theorem recorded_speeds_nonneg :
  (forall tripId now locations,
     let s := Foreground.feed locations
                (Foreground.startTracking tripId now) in
     let t := Foreground.tripData s in
     Forall (fun v => 0 <= v) (Foreground.speedReadings t) /\
     0 <= Foreground.maxSpeed t /\
     0 <= Foreground.previousSpeed s /\
     (0 <= average (Foreground.speedReadings t))%Q /\
     forall endTime, exists sm,
       Foreground.stopTracking endTime s = Some sm /\
       (0 <= avg_speed sm)%Q) /\
  (forall device tripId offline now locations,
     let s := Offline.feed locations
                (Offline.startTracking device tripId offline now) in
     exists t,
       Offline.tripDataRef s = Some t /\
       Forall (fun v => 0 <= v) (Offline.speedReadings t) /\
       0 <= Offline.maxSpeed t /\
       0 <= Offline.previousSpeed s /\
       (0 <= average (Offline.speedReadings t))%Q /\
       forall endTime, exists sm,
         Offline.stopTracking endTime s = Some sm /\
         (0 <= avg_speed sm)%Q).
Proof.
  split.
  - intros tripId now locations s t.
    destruct (Foreground_tracking_feed locations _
                (Foreground_tracking_start tripId now))
      as (Ecur & Hprev & _ & _ & _ & Hall & Hmax).
    fold s in Ecur, Hprev, Hall, Hmax. fold t in Ecur, Hall, Hmax.
    split; [exact Hall |].
    split; [rewrite Hmax; apply fold_max_ge |].
    split; [exact Hprev |].
    split; [now apply average_nonneg |].
    intros endTime. unfold Foreground.stopTracking. rewrite Ecur.
    eexists. split; [reflexivity |]. simpl.
    apply toFixed_nonneg. now apply average_nonneg.
  - intros device tripId offline now locations s.
    destruct (Offline_tracking_feed locations _
                (Offline_tracking_start device tripId offline now))
      as (t & Eref & Hprev & _ & _ & _ & Hall & Hmax).
    fold s in Eref, Hprev. exists t.
    split; [exact Eref |].
    split; [exact Hall |].
    split; [rewrite Hmax; apply fold_max_ge |].
    split; [exact Hprev |].
    split; [now apply average_nonneg |].
    intros endTime. unfold Offline.stopTracking. rewrite Eref.
    eexists. split; [reflexivity |]. simpl.
    apply toFixed_nonneg. now apply average_nonneg.
Qed.

(** ** The score *)

Lemma spec_score_eq (b a k : Z) :
  spec_score b a k = Z.max 0 (100 - 4 * b - 4 * a - 8 * k).
Proof. unfold spec_score. apply Math_round_inject_Z. Qed.

Lemma Foreground_trip_score_spec (t : Foreground.TripData) :
  Foreground.trip_score t =
  spec_score (Foreground.hardBrakes t) (Foreground.hardAccelerations t)
             (Foreground.speedingCount t).
Proof.
  rewrite spec_score_eq.
  unfold Foreground.trip_score, JS.Math_max. cbv zeta. f_equal. ring.
Qed.

Lemma Offline_trip_score_spec (t : Offline.TripData) :
  Offline.trip_score t =
  spec_score (Offline.hardBrakes t) (Offline.hardAccelerations t)
             (Offline.speedingCount t).
Proof.
  rewrite spec_score_eq.
  unfold Offline.trip_score, JS.Math_max. cbv zeta.
  rewrite Math_round_inject_Z. f_equal. ring.
Qed.

(** C1: for every accumulator the score computed at trip end is
    100 - 4 * hardBrakes - 4 * hardAccelerations - 8 * speedingCount,
    floored at 0 and rounded; it is 0 as soon as the penalties reach 100,
    and for every accumulator that updates have built from a fresh one
    the stored score lies between 0 and 100. *)
Theorem score_formula :
  (forall t,
     Foreground.trip_score t =
     spec_score (Foreground.hardBrakes t) (Foreground.hardAccelerations t)
                (Foreground.speedingCount t) /\
     Foreground.trip_score t =
     Z.max 0 (100 - 4 * Foreground.hardBrakes t
              - 4 * Foreground.hardAccelerations t
              - 8 * Foreground.speedingCount t) /\
     0 <= Foreground.trip_score t) /\
  (forall t,
     Offline.trip_score t =
     spec_score (Offline.hardBrakes t) (Offline.hardAccelerations t)
                (Offline.speedingCount t) /\
     Offline.trip_score t =
     Z.max 0 (100 - 4 * Offline.hardBrakes t
              - 4 * Offline.hardAccelerations t
              - 8 * Offline.speedingCount t) /\
     0 <= Offline.trip_score t) /\
  (forall t,
     100 <= 4 * Foreground.hardBrakes t + 4 * Foreground.hardAccelerations t
            + 8 * Foreground.speedingCount t ->
     Foreground.trip_score t = 0) /\
  (forall t,
     100 <= 4 * Offline.hardBrakes t + 4 * Offline.hardAccelerations t
            + 8 * Offline.speedingCount t ->
     Offline.trip_score t = 0) /\
  (forall tripId now locations endTime,
     let s := Foreground.feed locations
                (Foreground.startTracking tripId now) in
     exists sm,
       Foreground.stopTracking endTime s = Some sm /\
       score sm = Foreground.trip_score (Foreground.tripData s) /\
       0 <= score sm <= 100) /\
  (forall device tripId offline now locations endTime,
     let s := Offline.feed locations
                (Offline.startTracking device tripId offline now) in
     exists t sm,
       Offline.tripDataRef s = Some t /\
       Offline.stopTracking endTime s = Some sm /\
       score sm = Offline.trip_score t /\
       0 <= score sm <= 100).
Proof.
  split; [| split; [| split; [| split; [| split]]]].
  - intros t. pose proof (Foreground_trip_score_spec t) as E.
    split; [exact E |]. rewrite E, spec_score_eq. split; [reflexivity | lia].
  - intros t. pose proof (Offline_trip_score_spec t) as E.
    split; [exact E |]. rewrite E, spec_score_eq. split; [reflexivity | lia].
  - intros t H. rewrite Foreground_trip_score_spec, spec_score_eq. lia.
  - intros t H. rewrite Offline_trip_score_spec, spec_score_eq. lia.
  - intros tripId now locations endTime s.
    destruct (Foreground_tracking_feed locations _
                (Foreground_tracking_start tripId now))
      as (Ecur & _ & Hb & Ha & Hs & _ & _).
    fold s in Ecur, Hb, Ha, Hs.
    unfold Foreground.stopTracking. rewrite Ecur.
    eexists. split; [reflexivity |]. simpl.
    split; [reflexivity |].
    rewrite Foreground_trip_score_spec, spec_score_eq. lia.
  - intros device tripId offline now locations endTime s.
    destruct (Offline_tracking_feed locations _
                (Offline_tracking_start device tripId offline now))
      as (t & Eref & _ & Hb & Ha & Hs & _ & _).
    fold s in Eref.
    unfold Offline.stopTracking. rewrite Eref.
    exists t. eexists. split; [reflexivity |].
    split; [reflexivity |]. simpl.
    split; [reflexivity |].
    rewrite Offline_trip_score_spec, spec_score_eq. lia.
Qed.

(** Twenty speeding events take the formula to -60 and the score to 0. *)
Lemma score_formula_witness :
  Foreground.trip_score
    (Foreground.mkTripData "trip" 0 0 150 0 0 0 20 []) = 0 /\
  Offline.trip_score
    (Offline.mkTripData "trip" 0 0 150 0 0 0 20 [] false) = 0.
Proof.
  split.
  - apply (proj1 (proj2 (proj2 score_formula))). simpl. lia.
  - apply (proj1 (proj2 (proj2 (proj2 score_formula)))). simpl. lia.
Defined.

(** C5: stopping a trip that received no update stores score 100,
    distance 0 and average speed 0; the mean of the empty list of
    readings is 0. *)
Theorem stop_without_updates :
  average [] = 0%Q /\
  (forall tripId now endTime,
     exists sm,
       Foreground.stopTracking endTime
         (Foreground.startTracking tripId now) = Some sm /\
       score sm = 100 /\
       distance_km sm = 0%R /\
       (avg_speed sm == 0)%Q /\
       max_speed sm = 0 /\
       hard_brakes sm = 0 /\ hard_accelerations sm = 0 /\
       speeding_count sm = 0) /\
  (forall device tripId offline now endTime,
     exists sm,
       Offline.stopTracking endTime
         (Offline.startTracking device tripId offline now) = Some sm /\
       score sm = 100 /\
       distance_km sm = 0%R /\
       (avg_speed sm == 0)%Q /\
       max_speed sm = 0 /\
       hard_brakes sm = 0 /\ hard_accelerations sm = 0 /\
       speeding_count sm = 0).
Proof.
  split; [reflexivity |].
  split; intros; eexists; (split; [reflexivity |]); simpl;
    repeat split; apply toFixed2_R_0.
Qed.

(** ** Worked examples *)

(** Two hard brakes, one hard acceleration and three speeding events score
    100 - 8 - 4 - 24 = 64. *)
Example score_64 :
  Foreground.trip_score (Foreground.mkTripData "trip" 0 0 140 0 2 1 3 []) = 64 /\
  Offline.trip_score (Offline.mkTripData "trip" 0 0 140 0 2 1 3 [] false) = 64.
Proof. split; reflexivity. Qed.

(** From a standstill to 20 km/h: one hard acceleration, no hard brake. *)
Example accelerate_0_20 :
  let t := Foreground.tripData
             (Foreground.feed [fix_at 0; fix_at 20]
                (Foreground.startTracking "trip" 0)) in
  Foreground.hardAccelerations t = 1 /\ Foreground.hardBrakes t = 0 /\
  Foreground.speedReadings t = [0; 20] /\ Foreground.maxSpeed t = 20.
Proof. simpl. repeat split. Qed.

(** From 100 to 80 km/h the third revision counts a hard brake too, and
    shows the toast. *)
Example brake_100_80 :
  let s := Offline.feed [fix_at 100; fix_at 80]
             (Offline.startTracking Offline.all_granted "trip" false 0) in
  option_map Offline.hardBrakes (Offline.tripDataRef s) = Some 1 /\
  Offline.toasts s = [HardBrakeToast].
Proof. simpl. split; reflexivity. Qed.

(** A reading of 34.8 m/s is 125.28 km/h and is recorded as 125. *)
Example speed_of_34_8 : speed_of (Some (348 # 10)%Q) = 125.
Proof. reflexivity. Qed.

(** ** Further facts on the geodesy *)

Lemma calculateDistance_diag (lat lon : R) :
  calculateDistance lat lon lat lon = 0%R.
Proof.
  unfold calculateDistance. cbv zeta.
  replace ((lat - lat) * PI / 180 / 2)%R with 0%R by lra.
  replace ((lon - lon) * PI / 180 / 2)%R with 0%R by lra.
  rewrite sin_0.
  match goal with
  | |- context [sqrt ?a] =>
      replace a with 0%R by ring
  end.
  replace (1 - 0)%R with 1%R by ring.
  rewrite sqrt_0, sqrt_1.
  unfold JS.Math_atan2.
  destruct (Rlt_dec 0 1) as [_ | H]; [| lra].
  replace (0 / 1)%R with 0%R by lra.
  rewrite atan_0. ring.
Qed.

(** The distance from a point to itself is 0, so a fix at the position
    of the previous one leaves the distance of the trip as it was. *)
Theorem calculateDistance_same_point :
  (forall lat lon, calculateDistance lat lon lat lon = 0%R) /\
  (forall location tripData cur spd prev,
     Foreground.distance
       (Foreground.tripData
          (Foreground.handleLocationUpdate location
             (Foreground.mkScreen tripData cur spd prev (Some location))))
     = Foreground.distance tripData).
Proof.
  split; [exact calculateDistance_diag |].
  intros. simpl. rewrite calculateDistance_diag. ring.
Qed.


(** ** One update, continued *)

(** The same fix delivered twice in a row (as when the background task
    and the foreground watcher both report it) is counted once: the second
    delivery changes neither the distance, the maximum, the event counters
    nor the previous speed; it only records the speed a second time. *)
Theorem duplicate_fix_counted_once :
  (forall location s,
     let s1 := Foreground.handleLocationUpdate location s in
     let s2 := Foreground.handleLocationUpdate location s1 in
     let t1 := Foreground.tripData s1 in
     let t2 := Foreground.tripData s2 in
     Foreground.distance t2 = Foreground.distance t1 /\
     Foreground.maxSpeed t2 = Foreground.maxSpeed t1 /\
     Foreground.hardBrakes t2 = Foreground.hardBrakes t1 /\
     Foreground.hardAccelerations t2 = Foreground.hardAccelerations t1 /\
     Foreground.speedingCount t2 = Foreground.speedingCount t1 /\
     Foreground.previousSpeed s2 = Foreground.previousSpeed s1 /\
     Foreground.speedReadings t2 =
     Foreground.speedReadings t1 ++ [speed_at location]) /\
  (forall location t cur spd prev ploc ts,
     let s1 := Offline.handleLocationUpdate location
                 (Offline.mkScreen (Some t) cur spd prev ploc ts) in
     let s2 := Offline.handleLocationUpdate location s1 in
     exists t1 t2,
       Offline.tripDataRef s1 = Some t1 /\
       Offline.tripDataRef s2 = Some t2 /\
       Offline.distance t2 = Offline.distance t1 /\
       Offline.maxSpeed t2 = Offline.maxSpeed t1 /\
       Offline.hardBrakes t2 = Offline.hardBrakes t1 /\
       Offline.hardAccelerations t2 = Offline.hardAccelerations t1 /\
       Offline.speedingCount t2 = Offline.speedingCount t1 /\
       Offline.previousSpeed s2 = Offline.previousSpeed s1 /\
       Offline.toasts s2 = Offline.toasts s1 /\
       Offline.speedReadings t2 =
       Offline.speedReadings t1 ++ [speed_at location]).
Proof.
  split.
  - intros location s s1 s2 t1 t2. subst s1 s2 t1 t2.
    simpl. fold (speed_at location).
    split; [rewrite calculateDistance_diag; ring |].
    split; [counter_cases |].
    split; [counter_cases |].
    split; [counter_cases |].
    split; [counter_cases |].
    split; reflexivity.
  - intros location t cur spd prev ploc ts s1 s2. subst s1 s2.
    do 2 eexists.
    split; [reflexivity |]. split; [reflexivity |].
    simpl. fold (speed_at location).
    split; [rewrite calculateDistance_diag; ring |].
    split; [counter_cases |].
    split; [counter_cases |].
    split; [counter_cases |].
    split; [counter_cases |].
    split; [reflexivity |].
    split; [| reflexivity].
    rewrite Z.sub_diag. simpl.
    destruct (Z.ltb_spec 130 (speed_at location));
      destruct (Z.leb_spec (speed_at location) 130);
      simpl; try lia; now rewrite !app_nil_r.
Qed.

(** One update never counts a hard brake together with a hard
    acceleration, nor a hard brake together with a speeding event: the
    three counters grow by at most 2 in total, and by 2 only as a hard
    acceleration that crosses 130 km/h. *)
Theorem events_exclusive :
  (forall location s,
     let t := Foreground.tripData s in
     let t' := Foreground.tripData
                 (Foreground.handleLocationUpdate location s) in
     let brake := Foreground.hardBrakes t' - Foreground.hardBrakes t in
     let accel :=
       Foreground.hardAccelerations t' - Foreground.hardAccelerations t in
     let speeding :=
       Foreground.speedingCount t' - Foreground.speedingCount t in
     0 <= brake <= 1 /\ 0 <= accel <= 1 /\ 0 <= speeding <= 1 /\
     brake + accel <= 1 /\ brake + speeding <= 1) /\
  (forall location t cur spd prev ploc ts,
     exists t',
       Offline.tripDataRef
         (Offline.handleLocationUpdate location
            (Offline.mkScreen (Some t) cur spd prev ploc ts)) = Some t' /\
       let brake := Offline.hardBrakes t' - Offline.hardBrakes t in
       let accel :=
         Offline.hardAccelerations t' - Offline.hardAccelerations t in
       let speeding := Offline.speedingCount t' - Offline.speedingCount t in
       0 <= brake <= 1 /\ 0 <= accel <= 1 /\ 0 <= speeding <= 1 /\
       brake + accel <= 1 /\ brake + speeding <= 1).
Proof.
  split.
  - intros location s t t' brake accel speeding.
    subst t t' brake accel speeding.
    simpl. fold (speed_at location).
    repeat split; counter_cases.
  - intros location t cur spd prev ploc ts.
    eexists. split; [reflexivity |].
    simpl. fold (speed_at location).
    repeat split; counter_cases.
Qed.

(** The first fix of a trip is compared with a previous speed of 0: it
    never counts as a hard brake, adds no distance, and counts as a hard
    acceleration exactly when it reads more than 15 km/h and as a
    speeding event exactly when it reads more than 130 km/h. *)
Theorem first_fix :
  (forall tripId now location,
     let t := Foreground.tripData
                (Foreground.handleLocationUpdate location
                   (Foreground.startTracking tripId now)) in
     Foreground.hardBrakes t = 0 /\
     Foreground.distance t = 0%R /\
     Foreground.maxSpeed t = speed_at location /\
     (Foreground.hardAccelerations t = 1 <-> 15 < speed_at location) /\
     (Foreground.hardAccelerations t = 0 <-> speed_at location <= 15) /\
     (Foreground.speedingCount t = 1 <-> 130 < speed_at location) /\
     (Foreground.speedingCount t = 0 <-> speed_at location <= 130)) /\
  (forall device tripId offline now location,
     exists t,
       Offline.tripDataRef
         (Offline.handleLocationUpdate location
            (Offline.startTracking device tripId offline now)) = Some t /\
       Offline.hardBrakes t = 0 /\
       Offline.distance t = 0%R /\
       Offline.maxSpeed t = speed_at location /\
       (Offline.hardAccelerations t = 1 <-> 15 < speed_at location) /\
       (Offline.hardAccelerations t = 0 <-> speed_at location <= 15) /\
       (Offline.speedingCount t = 1 <-> 130 < speed_at location) /\
       (Offline.speedingCount t = 0 <-> speed_at location <= 130)).
Proof.
  split.
  - intros tripId now location t. subst t.
    simpl. fold (speed_at location).
    pose proof (speed_at_nonneg location) as Hsp.
    rewrite Z.sub_0_r.
    repeat split; try (intros; counter_cases);
      destruct (Z.ltb_spec 15 (speed_at location));
      destruct (Z.ltb_spec 130 (speed_at location));
      destruct (Z.ltb_spec 0 (speed_at location));
      simpl in *; lia.
  - intros device tripId offline now location.
    eexists. split; [reflexivity |].
    simpl. fold (speed_at location).
    pose proof (speed_at_nonneg location) as Hsp.
    rewrite Z.sub_0_r.
    repeat split; try (intros; counter_cases);
      destruct (Z.ltb_spec 15 (speed_at location));
      destruct (Z.ltb_spec 130 (speed_at location));
      destruct (Z.ltb_spec 0 (speed_at location));
      simpl in *; lia.
Qed.

(** ** Runs of updates *)

Lemma bool_count (c : bool) (n rest : Z) :
  (if c then n + 1 else n) + rest = n + ((if c then 1 else 0) + rest).
Proof. destruct c; lia. Qed.

Lemma Foreground_recount locations : forall s,
  let t := Foreground.tripData s in
  let t' := Foreground.tripData (Foreground.feed locations s) in
  let speeds := map speed_at locations in
  let prev := Foreground.previousSpeed s in
  Foreground.hardBrakes t' =
    Foreground.hardBrakes t + count_pairs is_hard_brake prev speeds /\
  Foreground.hardAccelerations t' =
    Foreground.hardAccelerations t
    + count_pairs is_hard_acceleration prev speeds /\
  Foreground.speedingCount t' =
    Foreground.speedingCount t
    + count_pairs is_speeding_crossing prev speeds.
Proof.
  induction locations as [| location rest IH]; intros s; simpl.
  - repeat split; lia.
  - destruct (IH (Foreground.handleLocationUpdate location s))
      as (Hb & Ha & Hs).
    simpl in Hb, Ha, Hs. fold (speed_at location) in Hb, Ha, Hs.
    rewrite Hb, Ha, Hs.
    unfold is_hard_brake, is_hard_acceleration, is_speeding_crossing.
    repeat split; apply bool_count.
Qed.

Lemma Offline_recount locations : forall t cur spd prev ploc ts,
  exists t',
    Offline.tripDataRef
      (Offline.feed locations
         (Offline.mkScreen (Some t) cur spd prev ploc ts)) = Some t' /\
    let speeds := map speed_at locations in
    Offline.hardBrakes t' =
      Offline.hardBrakes t + count_pairs is_guarded_hard_brake prev speeds /\
    Offline.hardAccelerations t' =
      Offline.hardAccelerations t
      + count_pairs is_hard_acceleration prev speeds /\
    Offline.speedingCount t' =
      Offline.speedingCount t
      + count_pairs is_speeding_crossing prev speeds /\
    toasts_of HardBrakeToast
      (Offline.toasts
         (Offline.feed locations
            (Offline.mkScreen (Some t) cur spd prev ploc ts))) =
      toasts_of HardBrakeToast ts
      + count_pairs is_guarded_hard_brake prev speeds /\
    toasts_of SpeedingToast
      (Offline.toasts
         (Offline.feed locations
            (Offline.mkScreen (Some t) cur spd prev ploc ts))) =
      toasts_of SpeedingToast ts
      + count_pairs is_speeding_crossing prev speeds.
Proof.
  induction locations as [| location rest IH]; intros t cur spd prev ploc ts.
  - exists t. simpl. repeat split; lia.
  - change (Offline.feed (location :: rest) ?s)
      with (Offline.feed rest (Offline.handleLocationUpdate location s)).
    destruct (Offline.handleLocationUpdate location
                (Offline.mkScreen (Some t) cur spd prev ploc ts))
      as [ref cur' spd' prev' ploc' ts'] eqn:E1.
    unfold Offline.handleLocationUpdate in E1. simpl in E1.
    fold (speed_at location) in E1.
    injection E1 as Eref _ _ Eprev _ Ets. subst ref prev' ts'.
    match goal with
    | |- context [Offline.mkScreen (Some ?t1) _ _ _ _ ?ts1] =>
        destruct (IH t1 cur' spd' (speed_at location) ploc' ts1)
          as (t' & E & Hb & Ha & Hs & Tb & Ts)
    end.
    exists t'. split; [exact E |].
    simpl in Hb, Ha, Hs. simpl.
    rewrite Hb, Ha, Hs, Tb, Ts.
    unfold is_guarded_hard_brake, is_hard_acceleration, is_speeding_crossing.
    unfold toasts_of. rewrite !filter_app, !length_app, !Nat2Z.inj_add.
    split; [apply bool_count |].
    split; [apply bool_count |].
    split; [apply bool_count |].
    split.
    + destruct ((15 <? prev - speed_at location) && (20 <? prev));
        destruct ((130 <? speed_at location) && (prev <=? 130));
        cbn [filter same_toast List.length]; lia.
    + destruct ((15 <? prev - speed_at location) && (20 <? prev));
        destruct ((130 <? speed_at location) && (prev <=? 130));
        cbn [filter same_toast List.length]; lia.
Qed.

Lemma count_pairs_nonneg test (speeds : list Z) : forall prev,
  0 <= count_pairs test prev speeds.
Proof.
  induction speeds as [| v rest IH]; intros prev; simpl; [lia |].
  specialize (IH v). destruct (test prev v); lia.
Qed.

Lemma count_brake_accel (speeds : list Z) : forall prev,
  count_pairs is_hard_brake prev speeds
  + count_pairs is_hard_acceleration prev speeds
  <= Z.of_nat (List.length speeds) /\
  count_pairs is_guarded_hard_brake prev speeds
  <= count_pairs is_hard_brake prev speeds.
Proof.
  induction speeds as [| v rest IH]; intros prev.
  - simpl. lia.
  - cbn [count_pairs List.length]. rewrite Nat2Z.inj_succ.
    destruct (IH v) as [IH1 IH2].
    unfold is_hard_brake at 1 3, is_hard_acceleration at 1,
      is_guarded_hard_brake at 1.
    destruct (Z.ltb_spec 15 (prev - v)); destruct (Z.ltb_spec 15 (v - prev));
      destruct (Z.ltb_spec 20 prev); simpl andb; lia.
Qed.

Lemma count_crossings (speeds : list Z) : forall prev,
  2 * count_pairs is_speeding_crossing prev speeds
  <= Z.of_nat (List.length speeds) + (if prev <=? 130 then 1 else 0).
Proof.
  induction speeds as [| v rest IH]; intros prev.
  - simpl. destruct (prev <=? 130); lia.
  - cbn [count_pairs List.length]. rewrite Nat2Z.inj_succ.
    specialize (IH v). unfold is_speeding_crossing at 1.
    destruct (Z.ltb_spec 130 v); destruct (Z.leb_spec prev 130);
      destruct (Z.leb_spec v 130); simpl andb; lia.
Qed.

(** The event counters of a trip can be recounted from the recorded
    speeds alone: each is the number of consecutive pairs of readings,
    the first reading being paired with 0, that pass its test. *)
Theorem counters_recounted_from_readings :
  (forall tripId now locations,
     let t := Foreground.tripData
                (Foreground.feed locations
                   (Foreground.startTracking tripId now)) in
     let readings := Foreground.speedReadings t in
     Foreground.hardBrakes t = count_pairs is_hard_brake 0 readings /\
     Foreground.hardAccelerations t =
       count_pairs is_hard_acceleration 0 readings /\
     Foreground.speedingCount t =
       count_pairs is_speeding_crossing 0 readings) /\
  (forall device tripId offline now locations,
     exists t,
       Offline.tripDataRef
         (Offline.feed locations
            (Offline.startTracking device tripId offline now)) = Some t /\
       let readings := Offline.speedReadings t in
       Offline.hardBrakes t = count_pairs is_guarded_hard_brake 0 readings /\
       Offline.hardAccelerations t =
         count_pairs is_hard_acceleration 0 readings /\
       Offline.speedingCount t =
         count_pairs is_speeding_crossing 0 readings).
Proof.
  split.
  - intros tripId now locations t readings. subst t readings.
    rewrite Foreground_readings_feed.
    destruct (Foreground_recount locations
                (Foreground.startTracking tripId now)) as (Hb & Ha & Hs).
    simpl in *. rewrite Hb, Ha, Hs. repeat split.
  - intros device tripId offline now locations.
    unfold Offline.startTracking.
    match goal with
    | |- context [Offline.mkScreen (Some ?t0) ?c ?sp ?p ?l ?ts] =>
        destruct (Offline_recount locations t0 c sp p l ts)
          as (t & E & Hb & Ha & Hs & _);
        destruct (Offline_readings_feed locations
                    (Offline.mkScreen (Some t0) c sp p l ts) t0 eq_refl)
          as (t2 & E2 & R2)
    end.
    rewrite E in E2. injection E2 as <-.
    exists t. split; [exact E |].
    simpl in *. rewrite R2, Hb, Ha, Hs. repeat split.
Qed.

Lemma toasts_split (shown : list Toast) :
  Z.of_nat (List.length shown) =
  toasts_of HardBrakeToast shown + toasts_of SpeedingToast shown
  + toasts_of BackgroundPermissionToast shown
  + toasts_of BackgroundStartToast shown.
Proof.
  unfold toasts_of.
  induction shown as [| [| | |] shown IH];
    cbn [filter same_toast List.length]; lia.
Qed.

Lemma Offline_warnings_kept locations : forall t cur spd prev ploc ts,
  let s := Offline.feed locations
             (Offline.mkScreen (Some t) cur spd prev ploc ts) in
  toasts_of BackgroundPermissionToast (Offline.toasts s) =
    toasts_of BackgroundPermissionToast ts /\
  toasts_of BackgroundStartToast (Offline.toasts s) =
    toasts_of BackgroundStartToast ts.
Proof.
  induction locations as [| location rest IH]; intros t cur spd prev ploc ts.
  - split; reflexivity.
  - cbv zeta.
    change (Offline.feed (location :: rest) ?s)
      with (Offline.feed rest (Offline.handleLocationUpdate location s)).
    destruct (Offline.handleLocationUpdate location
                (Offline.mkScreen (Some t) cur spd prev ploc ts))
      as [ref cur' spd' prev' ploc' ts'] eqn:E1.
    unfold Offline.handleLocationUpdate in E1. simpl in E1.
    fold (speed_at location) in E1.
    injection E1 as Eref _ _ _ _ Ets. subst ref ts'.
    match goal with
    | |- context [Offline.mkScreen (Some ?t1) _ _ _ _ ?ts1] =>
        destruct (IH t1 cur' spd' prev' ploc' ts1) as (Kp & Ks)
    end.
    cbv zeta in Kp, Ks. rewrite Kp, Ks.
    unfold toasts_of. rewrite !filter_app, !length_app, !Nat2Z.inj_add.
    destruct ((15 <? prev - speed_at location) && (20 <? prev));
      destruct ((130 <? speed_at location) && (prev <=? 130));
      cbn [filter same_toast List.length]; split; lia.
Qed.

(** In the third revision every hard brake and every speeding event
    hands exactly one message of its kind to [showToast]; the only other
    messages are the warnings that [startTracking] gave, at most one of
    each kind, and updates add none of those. *)
Theorem one_toast_per_event :
  forall device tripId offline now locations,
    let s := Offline.feed locations
               (Offline.startTracking device tripId offline now) in
    let no_permission :=
      if Offline.android device && negb (Offline.backgroundPermission device)
      then 1 else 0 in
    let not_started :=
      if Offline.android device && negb (Offline.backgroundStarts device)
      then 1 else 0 in
    exists t,
      Offline.tripDataRef s = Some t /\
      toasts_of HardBrakeToast (Offline.toasts s) = Offline.hardBrakes t /\
      toasts_of SpeedingToast (Offline.toasts s) = Offline.speedingCount t /\
      toasts_of BackgroundPermissionToast (Offline.toasts s)
        = no_permission /\
      toasts_of BackgroundStartToast (Offline.toasts s) = not_started /\
      Z.of_nat (List.length (Offline.toasts s)) =
      Offline.hardBrakes t + Offline.speedingCount t
      + no_permission + not_started.
Proof.
  intros device tripId offline now locations s no_permission not_started.
  subst s. unfold Offline.startTracking.
  match goal with
  | |- context [Offline.mkScreen (Some ?t0) ?c ?sp ?p ?l ?ts] =>
      destruct (Offline_recount locations t0 c sp p l ts)
        as (t & E & Hb & _ & Hs & Tb & Ts);
      destruct (Offline_warnings_kept locations t0 c sp p l ts)
        as (Kp & Ks);
      set (shown := ts) in *
  end.
  exists t. split; [exact E |].
  cbv zeta in Hb, Hs, Tb, Ts, Kp, Ks.
  cbn [Offline.hardBrakes Offline.speedingCount] in Hb, Hs.
  rewrite toasts_split, Hb, Hs, Tb, Ts, Kp, Ks.
  assert (S0 : toasts_of HardBrakeToast shown = 0 /\
               toasts_of SpeedingToast shown = 0 /\
               toasts_of BackgroundPermissionToast shown = no_permission /\
               toasts_of BackgroundStartToast shown = not_started).
  { subst shown no_permission not_started.
    destruct (Offline.android device);
      destruct (Offline.backgroundPermission device);
      destruct (Offline.backgroundStarts device);
      repeat split; reflexivity. }
  destruct S0 as (S1 & S2 & S3 & S4).
  rewrite S1, S2, S3, S4.
  repeat split; lia.
Qed.

(** After [n] updates of a fresh accumulator there are at most [n] hard
    brakes and hard accelerations together and at most [(n + 1) / 2]
    speeding events, so the score is at least [100 - 8 * n - 4]: no trip
    of fewer than 12 fixes scores 0. *)
Theorem event_counts_bounded :
  (forall tripId now locations,
     let t := Foreground.tripData
                (Foreground.feed locations
                   (Foreground.startTracking tripId now)) in
     let n := Z.of_nat (List.length locations) in
     Foreground.hardBrakes t + Foreground.hardAccelerations t <= n /\
     2 * Foreground.speedingCount t <= n + 1 /\
     100 - 8 * n - 4 <= Foreground.trip_score t) /\
  (forall device tripId offline now locations,
     exists t,
       Offline.tripDataRef
         (Offline.feed locations
            (Offline.startTracking device tripId offline now)) = Some t /\
       let n := Z.of_nat (List.length locations) in
       Offline.hardBrakes t + Offline.hardAccelerations t <= n /\
       2 * Offline.speedingCount t <= n + 1 /\
       100 - 8 * n - 4 <= Offline.trip_score t).
Proof.
  split.
  - intros tripId now locations t n. subst t n.
    set (s0 := Foreground.startTracking tripId now).
    destruct (Foreground_recount locations s0) as (Hb & Ha & Hs).
    cbv zeta in Hb, Ha, Hs.
    change (Foreground.previousSpeed s0) with 0 in Hb, Ha, Hs.
    change (Foreground.hardBrakes (Foreground.tripData s0)) with 0 in Hb.
    change (Foreground.hardAccelerations (Foreground.tripData s0))
      with 0 in Ha.
    change (Foreground.speedingCount (Foreground.tripData s0)) with 0 in Hs.
    pose proof (count_brake_accel (map speed_at locations) 0) as [B _].
    pose proof (count_crossings (map speed_at locations) 0) as C.
    rewrite length_map in B, C.
    change (if 0 <=? 130 then 1 else 0) with 1 in C.
    rewrite Foreground_trip_score_spec, spec_score_eq. lia.
  - intros device tripId offline now locations.
    unfold Offline.startTracking.
    match goal with
    | |- context [Offline.mkScreen (Some ?t0) ?c ?sp ?p ?l ?ts] =>
        destruct (Offline_recount locations t0 c sp p l ts)
          as (t & E & Hb & Ha & Hs & _)
    end.
    exists t. split; [exact E |].
    cbv zeta in Hb, Ha, Hs.
    cbn [Offline.hardBrakes Offline.hardAccelerations Offline.speedingCount]
      in Hb, Ha, Hs.
    pose proof (count_brake_accel (map speed_at locations) 0) as [B G].
    pose proof (count_crossings (map speed_at locations) 0) as C.
    rewrite length_map in B, C.
    change (if 0 <=? 130 then 1 else 0) with 1 in C.
    rewrite Offline_trip_score_spec, spec_score_eq. cbv zeta. lia.
Qed.

(** The score a trip would get never goes up while the trip goes on. *)
Theorem score_never_rises :
  (forall locations s,
     Foreground.trip_score
       (Foreground.tripData (Foreground.feed locations s))
     <= Foreground.trip_score (Foreground.tripData s)) /\
  (forall locations t cur spd prev ploc ts,
     exists t',
       Offline.tripDataRef
         (Offline.feed locations
            (Offline.mkScreen (Some t) cur spd prev ploc ts)) = Some t' /\
       Offline.trip_score t' <= Offline.trip_score t).
Proof.
  split.
  - intros locations s.
    destruct (Foreground_feed_le locations s) as (_ & _ & Hb & Ha & Hs).
    rewrite !Foreground_trip_score_spec, !spec_score_eq. lia.
  - intros locations t cur spd prev ploc ts.
    destruct (Offline_feed_le locations t cur spd prev ploc ts)
      as (t' & E & _ & _ & Hb & Ha & Hs).
    exists t'. split; [exact E |].
    rewrite !Offline_trip_score_spec, !spec_score_eq. lia.
Qed.

(** ** Accuracy of the conversions *)

Lemma Math_round_near (x : Q) :
  (inject_Z (JS.Math_round x) <= x + (1 # 2))%Q /\
  (x - (1 # 2) < inject_Z (JS.Math_round x))%Q.
Proof.
  unfold JS.Math_round.
  pose proof (Qfloor_le (x + (1 # 2))) as Hlo.
  pose proof (Qlt_floor (x + (1 # 2))) as Hhi.
  rewrite inject_Z_plus in Hhi.
  change (inject_Z 1) with 1%Q in Hhi.
  split; lra.
Qed.

(** For a reading that is not negative the recorded speed is within half
    a km/h of 3.6 times the reading, and a larger reading never gives a
    smaller speed. *)
Theorem speed_of_accuracy (q : Q) :
  (0 <= q)%Q ->
  (Qabs (inject_Z (speed_of (Some q)) - q * (36 # 10)) <= 1 # 2)%Q /\
  forall q', (q <= q')%Q -> speed_of (Some q) <= speed_of (Some q').
Proof.
  intros Hq. split.
  - unfold speed_of, speedKmh, JS.Math_max, JS.or_zero.
    assert (H0 : 0 <= JS.Math_round (q * (36 # 10))).
    { rewrite <- Math_round_0. apply Math_round_mono. lra. }
    rewrite Z.max_r by exact H0.
    destruct (Math_round_near (q * (36 # 10))) as [Hlo Hhi].
    apply Qabs_Qle_condition. split; lra.
  - intros q' Hle.
    unfold speed_of, speedKmh, JS.Math_max, JS.or_zero.
    apply Z.max_le_compat_l, Math_round_mono. lra.
Qed.

(** A reading of 10 m/s is recorded as 36 km/h. *)
Lemma speed_of_accuracy_witness :
  (Qabs (inject_Z (speed_of (Some 10%Q)) - 10 * (36 # 10)) <= 1 # 2)%Q.
Proof.
  apply (proj1 (speed_of_accuracy 10%Q ltac:(discriminate))).
Defined.

Lemma round_div_error (y p : Q) :
  (0 < p)%Q ->
  (Qabs (inject_Z (Qfloor (y * p + (1 # 2))) / p - y) <= (1 # 2) / p)%Q.
Proof.
  intros Hp.
  pose proof (Qfloor_le (y * p + (1 # 2))) as Hlo.
  pose proof (Qlt_floor (y * p + (1 # 2))) as Hhi.
  rewrite inject_Z_plus in Hhi. change (inject_Z 1) with 1%Q in Hhi.
  set (n := inject_Z (Qfloor (y * p + (1 # 2)))) in *.
  assert (Hne : ~ (p == 0)%Q) by lra.
  apply Qabs_Qle_condition. split.
  - apply (Qmult_le_r _ _ p Hp).
    setoid_replace (- ((1 # 2) / p) * p)%Q with (- (1 # 2))%Q
      by (field; exact Hne).
    setoid_replace ((n / p - y) * p)%Q with (n - y * p)%Q
      by (field; exact Hne).
    lra.
  - apply (Qmult_le_r _ _ p Hp).
    setoid_replace ((1 # 2) / p * p)%Q with (1 # 2)%Q by (field; exact Hne).
    setoid_replace ((n / p - y) * p)%Q with (n - y * p)%Q
      by (field; exact Hne).
    lra.
Qed.

Lemma pow10_pos (d : nat) : (0 < inject_Z (10 ^ Z.of_nat d))%Q.
Proof.
  change 0%Q with (inject_Z 0). rewrite <- Zlt_Qlt.
  apply Z.pow_pos_nonneg; lia.
Qed.

Lemma toFixed_error (d : nat) (x : Q) :
  (Qabs (JS.toFixed d x - x) <= (1 # 2) / inject_Z (10 ^ Z.of_nat d))%Q.
Proof.
  unfold JS.toFixed. cbv zeta.
  pose proof (pow10_pos d) as Hp.
  destruct (Qlt_le_dec x 0) as [_ | _].
  - pose proof (round_div_error (- x) _ Hp) as H.
    rewrite <- Qabs_opp.
    eapply Qle_trans; [| exact H].
    apply Qle_lteq. right. apply Qabs_wd. ring.
  - apply round_div_error. exact Hp.
Qed.



(** ** Average against maximum *)

Lemma sum_readings_le (m : Z) (l : list Z) :
  Forall (fun y => y <= m) l ->
  sum_readings l <= m * Z.of_nat (List.length l).
Proof.
  unfold sum_readings.
  assert (G : forall a, Forall (fun y => y <= m) l ->
                        fold_left (fun a b => a + b) l a
                        <= a + m * Z.of_nat (List.length l)).
  { induction l as [| x l IH]; intros a Hall.
    - simpl. lia.
    - inversion Hall as [| ? ? Hx Hl]; subst.
      cbn [fold_left List.length]. rewrite Nat2Z.inj_succ.
      specialize (IH (a + x) Hl). lia. }
  intros Hall. specialize (G 0 Hall). lia.
Qed.

Lemma average_le (m : Z) (l : list Z) :
  0 <= m -> Forall (fun y => y <= m) l -> (average l <= inject_Z m)%Q.
Proof.
  intros Hm Hall. unfold average.
  destruct (Z.ltb_spec 0 (Z.of_nat (List.length l))) as [Hn | _].
  - apply Qle_shift_div_r.
    + change 0%Q with (inject_Z 0). now rewrite <- Zlt_Qlt.
    + rewrite <- inject_Z_mult, <- Zle_Qle. now apply sum_readings_le.
  - now apply inject_Z_nonneg.
Qed.

Lemma toFixed_le_integer (d : nat) (x : Q) (m : Z) :
  (0 <= x)%Q -> (x <= inject_Z m)%Q -> (JS.toFixed d x <= inject_Z m)%Q.
Proof.
  intros Hx Hle. unfold JS.toFixed. cbv zeta.
  pose proof (pow10_pos d) as Hp.
  destruct (Qlt_le_dec x 0) as [Hneg | _]; [lra |].
  apply Qle_shift_div_r; [exact Hp |].
  rewrite <- inject_Z_mult, <- Zle_Qle.
  rewrite <- (Math_round_inject_Z (m * 10 ^ Z.of_nat d)).
  apply Math_round_mono.
  rewrite inject_Z_mult.
  apply Qmult_le_compat_r; [exact Hle | lra].
Qed.

(** The average speed stored for a trip never exceeds its maximum speed,
    before and after the rounding to one decimal. *)
Theorem average_at_most_maximum :
  (forall tripId now locations endTime,
     let s := Foreground.feed locations
                (Foreground.startTracking tripId now) in
     (average (Foreground.speedReadings (Foreground.tripData s))
      <= inject_Z (Foreground.maxSpeed (Foreground.tripData s)))%Q /\
     exists sm,
       Foreground.stopTracking endTime s = Some sm /\
       (avg_speed sm <= inject_Z (max_speed sm))%Q) /\
  (forall device tripId offline now locations endTime,
     let s := Offline.feed locations
                (Offline.startTracking device tripId offline now) in
     exists t sm,
       Offline.tripDataRef s = Some t /\
       (average (Offline.speedReadings t)
        <= inject_Z (Offline.maxSpeed t))%Q /\
       Offline.stopTracking endTime s = Some sm /\
       (avg_speed sm <= inject_Z (max_speed sm))%Q).
Proof.
  split.
  - intros tripId now locations endTime s.
    destruct (Foreground_tracking_feed locations _
                (Foreground_tracking_start tripId now))
      as (Ecur & _ & _ & _ & _ & Hall & Hmax).
    fold s in Ecur, Hall, Hmax.
    pose proof (fold_max_ge
                  (Foreground.speedReadings (Foreground.tripData s)) 0)
      as [H0 Hle].
    rewrite <- Hmax in H0, Hle.
    pose proof (average_le _ _ H0 Hle) as Havg.
    split; [exact Havg |].
    unfold Foreground.stopTracking. rewrite Ecur.
    eexists. split; [reflexivity |].
    cbn [avg_speed max_speed].
    apply toFixed_le_integer; [now apply average_nonneg | exact Havg].
  - intros device tripId offline now locations endTime s.
    destruct (Offline_tracking_feed locations _
                (Offline_tracking_start device tripId offline now))
      as (t & Eref & _ & _ & _ & _ & Hall & Hmax).
    fold s in Eref.
    pose proof (fold_max_ge (Offline.speedReadings t) 0) as [H0 Hle].
    rewrite <- Hmax in H0, Hle.
    pose proof (average_le _ _ H0 Hle) as Havg.
    exists t. unfold Offline.stopTracking. rewrite Eref.
    eexists. split; [reflexivity |]. split; [exact Havg |].
    split; [reflexivity |].
    cbn [avg_speed max_speed].
    apply toFixed_le_integer; [now apply average_nonneg | exact Havg].
Qed.

(** ** Stopping a trip in the third revision *)

(** Stopping a trip empties the screen whatever the backend and the
    storage answer; a fix that arrives afterwards changes nothing, and a
    second [stopTracking] saves nothing and shows no alert. *)
Theorem nothing_after_stop :
  forall api_url put storage_ok endTime savedAt stored t cur spd prev ploc ts,
    let r := stopTracking_io api_url put storage_ok endTime savedAt stored
               (Offline.mkScreen (Some t) cur spd prev ploc ts) in
    Offline.tripDataRef (screen r) = None /\
    Offline.currentTrip (screen r) = None /\
    Offline.currentSpeed (screen r) = 0 /\
    Offline.previousSpeed (screen r) = 0 /\
    Offline.previousLocation (screen r) = None /\
    (forall locations, Offline.feed locations (screen r) = screen r) /\
    (forall endTime', Offline.stopTracking endTime' (screen r) = None) /\
    (forall api_url' put' storage_ok' endTime' savedAt',
       stopTracking_io api_url' put' storage_ok' endTime' savedAt'
         (storage r) (screen r) =
       {| screen := screen r; storage := storage r;
          accepted := None; alert := None |}).
Proof.
  intros. subst r. cbn [stopTracking_io Offline.tripDataRef screen].
  do 5 (split; [reflexivity |]).
  split; [| split; intros; reflexivity].
  induction locations as [| location rest IH]; [reflexivity |].
  exact IH.
Qed.

(** Where a finished trip goes.  The backend keeps it when [API_URL] is
    set, the trip was created online and the request is answered with
    success; the list in storage is then untouched.  In every other case
    the trip is appended, unsynced, to the list in storage, whose earlier
    entries stay; if storage fails as well, the trip is saved nowhere. *)
Theorem finished_trip_destination :
  forall api_url put storage_ok endTime savedAt stored t cur spd prev ploc ts,
    let s := Offline.mkScreen (Some t) cur spd prev ploc ts in
    let r := stopTracking_io api_url put storage_ok endTime savedAt stored s in
    let existing := match stored with Some l => l | None => [] end in
    exists request,
      Offline.stopTracking endTime s = Some request /\
      alert r = Some (Today.feedback (score request)) /\
      let online :=
        api_url = true /\ Offline.isOffline t = false /\
        put request = Some true in
      (online -> accepted r = Some request /\ storage r = stored) /\
      (~ online -> storage_ok = true ->
       accepted r = None /\
       storage r =
       Some (existing ++
             [ {| trip_id := Offline.id t;
                  trip_start_time := Offline.startTime t;
                  body := {|
                    end_time := savedAt;
                    distance_km := distance_km request;
                    duration_minutes := duration_minutes request;
                    max_speed := max_speed request;
                    avg_speed := avg_speed request;
                    hard_brakes := hard_brakes request;
                    hard_accelerations := hard_accelerations request;
                    speeding_count := speeding_count request;
                    score := score request |};
                  synced := false |} ])) /\
      (~ online -> storage_ok = false ->
       accepted r = None /\ storage r = stored).
Proof.
  intros. subst s r existing.
  eexists. split; [reflexivity |].
  cbn [stopTracking_io Offline.tripDataRef alert accepted storage score].
  split; [reflexivity |].
  cbv zeta.
  match goal with
  | |- context [put ?req] => set (request := req)
  end.
  destruct api_url; destruct (Offline.isOffline t);
    destruct (put request) as [[|] |]; cbn [andb negb fst snd];
    (split; [intros (Ha & Hb & Hc); try discriminate; split; reflexivity |]);
    (split; intros Hoff Hok; subst storage_ok;
     try (exfalso; apply Hoff; repeat split; reflexivity);
     split; reflexivity).
Qed.

(** A trip recorded without a backend, the storage answering: it is
    not sent anywhere and becomes the first entry of the stored list. *)
Lemma finished_trip_destination_witness :
  let t := Offline.mkTripData "trip" 0 0 50 0 0 1 0 [50] true in
  let r := stopTracking_io false (fun _ => None) true 60000 60001 None
             (Offline.mkScreen (Some t) (Some t) 50 50 None []) in
  accepted r = None /\
  exists entry,
    storage r = Some [entry] /\ synced entry = false /\
    score (body entry) = 96.
Proof.
  intros t r.
  destruct (finished_trip_destination false (fun _ => None) true 60000 60001
              None t (Some t) 50 50 None [])
    as (request & E & _ & _ & Hlocal & _).
  destruct Hlocal as [Hacc Hsto].
  - intros (Hurl & _). discriminate Hurl.
  - reflexivity.
  - split; [exact Hacc |].
    eexists. split; [exact Hsto |].
    split; [reflexivity |].
    cbn [body score]. injection E as <-. reflexivity.
Defined.

(** ** How a score is shown *)

(** Resolves the three threshold tests on [score] into facts on [score]. *)
Ltac thresholds score :=
  destruct (Qle_bool 90 score) eqn:E90;
  destruct (Qle_bool 80 score) eqn:E80;
  destruct (Qle_bool 60 score) eqn:E60;
  try (apply Qle_bool_iff in E90);
  try (apply Qle_bool_iff in E80);
  try (apply Qle_bool_iff in E60);
  try (assert (~ (90 <= score)%Q)
         by (intros G; apply Qle_bool_iff in G; congruence));
  try (assert (~ (80 <= score)%Q)
         by (intros G; apply Qle_bool_iff in G; congruence));
  try (assert (~ (60 <= score)%Q)
         by (intros G; apply Qle_bool_iff in G; congruence));
  try (exfalso; lra).

(** The helpers agree on every score: green goes with "Excellent" and
    "Good", amber with "Fair" (or "Average Driver"), red with "Needs
    Improvement", and the Today screen colours a score as the other
    screens do.  The History and Trip-details screens show exactly the
    helpers' colour and grade.  The Profile screen shows the grade only
    for an average above 0; otherwise its label reads "New Driver", also
    when trips exist and the score card colours their average red. *)
Theorem grade_agrees_with_colour :
  (forall score,
     (getScoreColor score = "#10B981"%string <->
      getScoreGrade score = "Excellent"%string \/
      getScoreGrade score = "Good"%string) /\
     (getScoreColor score = "#F59E0B"%string <->
      getScoreGrade score = "Fair"%string) /\
     (getScoreColor score = "#EF4444"%string <->
      getScoreGrade score = "Needs Improvement"%string) /\
     (getScoreColor score = "#10B981"%string <->
      Profile.getScoreGrade score = "Excellent Driver"%string \/
      Profile.getScoreGrade score = "Good Driver"%string) /\
     (getScoreColor score = "#F59E0B"%string <->
      Profile.getScoreGrade score = "Average Driver"%string) /\
     (getScoreColor score = "#EF4444"%string <->
      Profile.getScoreGrade score = "Needs Improvement"%string) /\
     Today.getScoreColor (Some score) = getScoreColor score) /\
  (forall score,
     History.renderTripItem score = (getScoreColor score, getScoreGrade score)
     /\ TripDetail.scoreCard score
        = (getScoreColor score, getScoreGrade score)) /\
  (forall stats,
     (0 < Profile.average_score stats)%Q ->
     Profile.driverLabel (Some stats) =
     Profile.getScoreGrade (Profile.average_score stats) /\
     (0 < Profile.total_trips stats ->
      Profile.mainScoreCard (Some stats) =
      Some (getScoreColor (Profile.average_score stats)))) /\
  (forall stats,
     (Profile.average_score stats <= 0)%Q ->
     Profile.driverLabel (Some stats) = "New Driver"%string /\
     (0 < Profile.total_trips stats ->
      Profile.mainScoreCard (Some stats) = Some "#EF4444"%string)) /\
  (forall stats,
     Profile.total_trips stats <= 0 ->
     Profile.mainScoreCard (Some stats) = None) /\
  Profile.driverLabel None = "New Driver"%string /\
  Profile.mainScoreCard None = None.
Proof.
  split; [| split; [| split; [| split; [| split; [| split]]]]];
    try reflexivity.
  - intros score.
    unfold getScoreColor, getScoreGrade, Profile.getScoreGrade,
      Today.getScoreColor.
    thresholds score;
      repeat split; intros; try reflexivity; try discriminate;
      try (left; reflexivity); try (right; reflexivity);
      match goal with
      | G : _ \/ _ |- _ => destruct G; discriminate
      end.
  - intros score. split; reflexivity.
  - intros stats Hpos. unfold Profile.driverLabel, Profile.mainScoreCard.
    destruct (Qlt_le_dec 0 (Profile.average_score stats)) as [_ | Hle];
      [| lra].
    split; [reflexivity |].
    intros Htrips.
    destruct (Z.ltb_spec 0 (Profile.total_trips stats)); [reflexivity | lia].
  - intros stats Hle. unfold Profile.driverLabel, Profile.mainScoreCard.
    destruct (Qlt_le_dec 0 (Profile.average_score stats)) as [Hpos | _];
      [lra |].
    split; [reflexivity |].
    intros Htrips.
    destruct (Z.ltb_spec 0 (Profile.total_trips stats)); [| lia].
    unfold getScoreColor.
    thresholds (Profile.average_score stats). reflexivity.
  - intros stats Hnone. unfold Profile.mainScoreCard.
    destruct (Z.ltb_spec 0 (Profile.total_trips stats)); [lia | reflexivity].
Qed.

(** Three trips that all scored 0: the label reads "New Driver" beside a
    red score. *)
Lemma grade_agrees_with_colour_witness :
  let stats := Profile.mkUserStats 3 (25 # 2) 0 0 in
  Profile.driverLabel (Some stats) = "New Driver"%string /\
  Profile.mainScoreCard (Some stats) = Some "#EF4444"%string.
Proof.
  intros stats.
  destruct (proj1 (proj2 (proj2 (proj2 grade_agrees_with_colour))) stats)
    as [Hlabel Hcard].
  - discriminate.
  - split; [exact Hlabel | apply Hcard; reflexivity].
Defined.

(** The alert that closes a trip and the grade the history gives it can
    disagree: a score from 50 to 59 is announced as good driving and then
    listed as "Needs Improvement"; otherwise "excellent" and "good" are
    listed green or amber and a warning is listed red. *)
Theorem closing_alert_against_grade (z : Z) :
  (50 <= z < 60 <->
   Today.feedback z = Today.Good /\
   getScoreGrade (inject_Z z) = "Needs Improvement"%string) /\
  (Today.feedback z = Today.Excellent ->
   getScoreColor (inject_Z z) = "#10B981"%string) /\
  (Today.feedback z = Today.Warning ->
   getScoreColor (inject_Z z) = "#EF4444"%string) /\
  (Today.feedback z = Today.Good ->
   getScoreColor (inject_Z z) = "#10B981"%string <-> z = 80).
Proof.
  unfold Today.feedback, getScoreColor, getScoreGrade.
  assert (T : forall k : Z,
             Qle_bool (inject_Z k) (inject_Z z) = (k <=? z)).
  { intros k. apply eq_true_iff_eq.
    rewrite Qle_bool_iff, <- Zle_Qle. symmetry. apply Z.leb_le. }
  change 90%Q with (inject_Z 90). change 80%Q with (inject_Z 80).
  change 60%Q with (inject_Z 60). rewrite !T.
  destruct (Z.ltb_spec 80 z); destruct (Z.leb_spec 50 z);
    destruct (Z.leb_spec 90 z); destruct (Z.leb_spec 80 z);
    destruct (Z.leb_spec 60 z); try lia;
    repeat split; intros; try lia; try reflexivity; try discriminate;
    repeat match goal with
           | G : _ /\ _ |- _ => destruct G
           end; try lia; try discriminate.
Qed.

(** ** Durations *)

Lemma Z_of_Q_bounds (z lo hi : Z) :
  (inject_Z lo < inject_Z z)%Q -> (inject_Z z < inject_Z hi)%Q ->
  lo < z < hi.
Proof. rewrite <- !Zlt_Qlt. lia. Qed.

(** Turns [inject_Z] of a numeral into the fraction it denotes. *)
Ltac inject_consts :=
  repeat match goal with
         | |- context [inject_Z (Z.pos ?p)] =>
             change (inject_Z (Z.pos p)) with (Z.pos p # 1)%Q
         | |- context [inject_Z (Z.neg ?p)] =>
             change (inject_Z (Z.neg p)) with (Z.neg p # 1)%Q
         | |- context [inject_Z 0] =>
             change (inject_Z 0) with 0%Q
         | H : context [inject_Z (Z.pos ?p)] |- _ =>
             change (inject_Z (Z.pos p)) with (Z.pos p # 1)%Q in H
         | H : context [inject_Z (Z.neg ?p)] |- _ =>
             change (inject_Z (Z.neg p)) with (Z.neg p # 1)%Q in H
         | H : context [inject_Z 0] |- _ =>
             change (inject_Z 0) with 0%Q in H
         end.

(** [formatDuration] rounds the minutes, or the minutes left over after
    the whole hours, to the nearest integer, so what it shows is within
    half a minute of the duration; but the minutes shown can reach 60:
    from 59.5 minutes on it shows "60 min", and in the last half minute
    of every hour it shows "60m" beside the hours. *)
Theorem formatDuration_parts (minutes : Q) :
  ((0 <= minutes)%Q -> (minutes < 60)%Q ->
   exists m,
     TripDetail.formatDuration minutes = (string_of_Z m ++ " min")%string /\
     0 <= m <= 60 /\
     (Qabs (inject_Z m - minutes) <= 1 # 2)%Q /\
     (m = 60 <-> ((119 # 2) <= minutes)%Q)) /\
  ((60 <= minutes)%Q ->
   exists hours mins,
     TripDetail.formatDuration minutes =
     (string_of_Z hours ++ "h " ++ string_of_Z mins ++ "m")%string /\
     1 <= hours /\ 0 <= mins <= 60 /\
     (Qabs (inject_Z (60 * hours + mins) - minutes) <= 1 # 2)%Q /\
     (mins = 60 <-> (inject_Z (60 * hours) + (119 # 2) <= minutes)%Q)).
Proof.
  split.
  - intros H0 H60. unfold TripDetail.formatDuration.
    destruct (Qlt_le_dec minutes 60) as [_ | Hge]; [| lra].
    exists (JS.Math_round minutes). split; [reflexivity |].
    destruct (Math_round_near minutes) as [Hlo Hhi].
    assert (B : -1 < JS.Math_round minutes < 61)
      by (apply Z_of_Q_bounds; inject_consts; lra).
    split; [lia |].
    split; [apply Qabs_Qle_condition; split; lra |].
    split.
    + intros E. rewrite E in Hlo. inject_consts. lra.
    + intros Hlate.
      assert (59 < JS.Math_round minutes < 61)
        by (apply Z_of_Q_bounds; inject_consts; lra).
      lia.
  - intros Hge. unfold TripDetail.formatDuration.
    destruct (Qlt_le_dec minutes 60) as [Hlt | _]; [lra |].
    exists (Qfloor (minutes / 60)), (JS.Math_round (TripDetail.rem60 minutes)).
    split; [reflexivity |].
    pose proof (Qfloor_le (minutes / 60)) as Flo.
    pose proof (Qlt_floor (minutes / 60)) as Fhi.
    rewrite inject_Z_plus in Fhi. change (inject_Z 1) with 1%Q in Fhi.
    assert (Eq : (minutes == 60 * (minutes / 60))%Q) by (field; discriminate).
    set (q := (minutes / 60)%Q) in *.
    set (hours := Qfloor q) in *.
    assert (Erem : (TripDetail.rem60 minutes == minutes - 60 * inject_Z hours)%Q).
    { unfold TripDetail.rem60. fold q.
      destruct (Qlt_le_dec q 0) as [Hneg | _]; [lra | reflexivity]. }
    destruct (Math_round_near (TripDetail.rem60 minutes)) as [Hlo Hhi].
    set (mins := JS.Math_round (TripDetail.rem60 minutes)) in *.
    rewrite Erem in Hlo, Hhi.
    assert (Bh : 0 < hours < hours + 1 + 1).
    { apply Z_of_Q_bounds; [inject_consts; lra |].
      rewrite !inject_Z_plus. inject_consts. lra. }
    assert (Bm : -1 < mins < 61)
      by (apply Z_of_Q_bounds; inject_consts; lra).
    split; [lia |]. split; [lia |].
    rewrite inject_Z_plus, !inject_Z_mult.
    change (inject_Z 60) with 60%Q.
    split; [apply Qabs_Qle_condition; split; lra |].
    split.
    + intros E. rewrite E in Hlo. inject_consts. lra.
    + intros Hlate.
      assert (59 < mins < 61) by (apply Z_of_Q_bounds; inject_consts; lra).
      lia.
Qed.

(** 119.7 minutes are shown as 1 h 60 m. *)
Lemma formatDuration_parts_witness :
  exists hours mins,
    TripDetail.formatDuration (1197 # 10) =
    (string_of_Z hours ++ "h " ++ string_of_Z mins ++ "m")%string /\
    1 <= hours /\ 0 <= mins <= 60.
Proof.
  destruct (proj2 (formatDuration_parts (1197 # 10)) ltac:(discriminate))
    as (hours & mins & E & Hh & Hm & _).
  exists hours, mins. split; [exact E | split; assumption].
Defined.

(** ** The score of the day *)

Lemma sum_scores_bounds (lo hi : Z) (l : list Today.Trip) :
  Forall (fun t => lo <= Today.score t <= hi) l ->
  forall a,
    a + lo * Z.of_nat (List.length l)
    <= fold_left (fun sum t => sum + Today.score t) l a
    <= a + hi * Z.of_nat (List.length l).
Proof.
  induction 1 as [| t l Ht _ IH]; intros a.
  - simpl. lia.
  - cbn [fold_left List.length]. rewrite Nat2Z.inj_succ.
    specialize (IH (a + Today.score t)). lia.
Qed.

(** [fetchTodayScore] shows the rounded mean of the scores of the trips
    started since midnight: a failed request keeps the score shown
    before; a list without a trip of today clears it, whatever it was; and
    the score shown lies between the lowest and the highest score of
    today's trips. *)
Theorem today_score :
  (forall today old, Today.fetchTodayScore None today old = old) /\
  (forall trips today old,
     Today.fetchTodayScore (Some trips) today old = None <->
     Forall (fun t => Today.start_time t < today) trips) /\
  (forall trips today old lo hi r,
     Forall (fun t => today <= Today.start_time t ->
                      lo <= Today.score t <= hi) trips ->
     Today.fetchTodayScore (Some trips) today old = Some r ->
     lo <= r <= hi).
Proof.
  split; [reflexivity |]. split.
  - intros trips today old. unfold Today.fetchTodayScore. cbv zeta.
    set (l := filter (fun trip => today <=? Today.start_time trip) trips).
    assert (Hl : l = [] <->
                 Forall (fun t => Today.start_time t < today) trips).
    { subst l. induction trips as [| t trips IH]; simpl.
      - split; [constructor | reflexivity].
      - destruct (Z.leb_spec today (Today.start_time t)).
        + split; [discriminate |].
          intros Hall. inversion Hall; subst. lia.
        + rewrite IH. split.
          * intros Hall. constructor; assumption.
          * intros Hall. now inversion Hall. }
    rewrite <- Hl.
    destruct l as [| t l']; simpl List.length.
    + split; reflexivity.
    + destruct (Z.ltb_spec 0 (Z.of_nat (S (List.length l')))); [| lia].
      split; discriminate.
  - intros trips today old lo hi r Hall.
    unfold Today.fetchTodayScore. cbv zeta.
    set (l := filter (fun trip => today <=? Today.start_time trip) trips).
    assert (Hl : Forall (fun t => lo <= Today.score t <= hi) l).
    { apply Forall_forall. intros t Hin.
      apply filter_In in Hin. destruct Hin as [Hin Htoday].
      rewrite Forall_forall in Hall. apply (Hall t Hin). lia. }
    destruct (Z.ltb_spec 0 (Z.of_nat (List.length l))) as [Hn | _];
      [| discriminate].
    intros [= <-].
    pose proof (sum_scores_bounds lo hi l Hl 0) as [Slo Shi].
    set (total := fold_left (fun sum t => sum + Today.score t) l 0) in *.
    set (n := Z.of_nat (List.length l)) in *.
    assert (Hn' : (0 < inject_Z n)%Q)
      by (change 0%Q with (inject_Z 0); now rewrite <- Zlt_Qlt).
    split.
    + rewrite <- (Math_round_inject_Z lo) at 1.
      apply Math_round_mono, Qle_shift_div_l; [exact Hn' |].
      rewrite <- inject_Z_mult, <- Zle_Qle. lia.
    + rewrite <- (Math_round_inject_Z hi).
      apply Math_round_mono, Qle_shift_div_r; [exact Hn' |].
      rewrite <- inject_Z_mult, <- Zle_Qle. lia.
Qed.

(** Two trips of today scored 80 and 93, one of yesterday scored 20: the
    score of the day lies between 80 and 93. *)
Lemma today_score_witness :
  let trips := [Today.mkTrip 1000 80; Today.mkTrip 2000 93;
                Today.mkTrip (-5000) 20] in
  80 <= 87 <= 93 /\
  Today.fetchTodayScore (Some trips) 0 None = Some 87.
Proof.
  intros trips.
  assert (E : Today.fetchTodayScore (Some trips) 0 None = Some 87)
    by reflexivity.
  split; [| exact E].
  apply (proj2 (proj2 today_score) trips 0 None 80 93 87); [| exact E].
  subst trips.
  repeat (apply Forall_cons; [simpl; lia |]). apply Forall_nil.
Defined.

(** ** What the screen shows while tracking *)

Lemma Foreground_in_sync_feed locations : forall s,
  Foreground_in_sync s -> Foreground_in_sync (Foreground.feed locations s).
Proof.
  induction locations as [| location rest IH]; intros s Hs; [exact Hs |].
  apply IH. clear IH.
  destruct Hs as (_ & _ & _ & _).
  unfold Foreground_in_sync. simpl. fold (speed_at location).
  split; [reflexivity |]. split; [reflexivity |].
  split; [now rewrite last_last | counter_cases].
Qed.

Lemma Offline_in_sync_feed locations : forall s,
  Offline_in_sync s -> Offline_in_sync (Offline.feed locations s).
Proof.
  induction locations as [| location rest IH]; intros s Hs; [exact Hs |].
  apply IH. clear IH.
  destruct Hs as (t & Eref & _).
  unfold Offline_in_sync, Offline.handleLocationUpdate. rewrite Eref.
  eexists. split; [reflexivity |].
  simpl. fold (speed_at location).
  split; [reflexivity |]. split; [reflexivity |].
  split; [now rewrite last_last | counter_cases].
Qed.

(** While a trip is tracked the copy of the trip that the screen renders
    (and that [stopTracking] of the first revision reads) is the
    accumulator itself, the speed shown is the last recorded reading, and
    it never exceeds the maximum shown. *)
Theorem screen_in_sync :
  (forall tripId now locations,
     Foreground_in_sync
       (Foreground.feed locations (Foreground.startTracking tripId now))) /\
  (forall device tripId offline now locations,
     Offline_in_sync
       (Offline.feed locations (Offline.startTracking device tripId offline now))).
Proof.
  split; intros.
  - apply Foreground_in_sync_feed.
    unfold Foreground_in_sync. simpl.
    do 3 (split; [reflexivity |]). lia.
  - apply Offline_in_sync_feed.
    unfold Offline_in_sync. eexists. simpl.
    do 4 (split; [reflexivity |]). simpl. lia.
Qed.

(** Updates never touch the identity of a trip: its id, its start time
    and its offline flag stay as [startTracking] set them, and its
    [avgSpeed] field stays 0 (the average exists only in the summary). *)
Theorem trip_identity_kept :
  (forall locations s,
     let t := Foreground.tripData s in
     let t' := Foreground.tripData (Foreground.feed locations s) in
     Foreground.id t' = Foreground.id t /\
     Foreground.startTime t' = Foreground.startTime t /\
     Foreground.avgSpeed t' = Foreground.avgSpeed t) /\
  (forall locations t cur spd prev ploc ts,
     exists t',
       Offline.tripDataRef
         (Offline.feed locations
            (Offline.mkScreen (Some t) cur spd prev ploc ts)) = Some t' /\
       Offline.id t' = Offline.id t /\
       Offline.startTime t' = Offline.startTime t /\
       Offline.avgSpeed t' = Offline.avgSpeed t /\
       Offline.isOffline t' = Offline.isOffline t) /\
  (forall device tripId offline now locations endTime,
     exists t request,
       Offline.tripDataRef
         (Offline.feed locations
            (Offline.startTracking device tripId offline now)) = Some t /\
       Offline.id t = tripId /\ Offline.isOffline t = offline /\
       Offline.avgSpeed t = 0%Q /\
       Offline.stopTracking endTime
         (Offline.feed locations
            (Offline.startTracking device tripId offline now)) = Some request /\
       (Qabs (duration_minutes request - inject_Z (endTime - now) / 60000)
        <= 1 # 200)%Q).
Proof.
  assert (F : forall locations s,
             let t := Foreground.tripData s in
             let t' := Foreground.tripData (Foreground.feed locations s) in
             Foreground.id t' = Foreground.id t /\
             Foreground.startTime t' = Foreground.startTime t /\
             Foreground.avgSpeed t' = Foreground.avgSpeed t).
  { induction locations as [| location rest IH]; intros s.
    - repeat split.
    - destruct (IH (Foreground.handleLocationUpdate location s))
        as (E1 & E2 & E3).
      simpl in *. rewrite E1, E2, E3. repeat split. }
  assert (O : forall locations t cur spd prev ploc ts,
             exists t',
               Offline.tripDataRef
                 (Offline.feed locations
                    (Offline.mkScreen (Some t) cur spd prev ploc ts))
               = Some t' /\
               Offline.id t' = Offline.id t /\
               Offline.startTime t' = Offline.startTime t /\
               Offline.avgSpeed t' = Offline.avgSpeed t /\
               Offline.isOffline t' = Offline.isOffline t).
  { induction locations as [| location rest IH];
      intros t cur spd prev ploc ts.
    - exists t. repeat split.
    - change (Offline.feed (location :: rest) ?s)
        with (Offline.feed rest (Offline.handleLocationUpdate location s)).
      destruct (Offline.handleLocationUpdate location
                  (Offline.mkScreen (Some t) cur spd prev ploc ts))
        as [ref cur' spd' prev' ploc' ts'] eqn:E1.
      unfold Offline.handleLocationUpdate in E1. simpl in E1.
      injection E1 as Eref _ _ _ _ _. subst ref.
      match goal with
      | |- context [Offline.mkScreen (Some ?t1) _ _ _ _ _] =>
          destruct (IH t1 cur' spd' prev' ploc' ts')
            as (t' & E & I1 & I2 & I3 & I4)
      end.
      exists t'. split; [exact E |]. simpl in I1, I2, I3, I4.
      repeat split; assumption. }
  split; [exact F |]. split; [exact O |].
  intros device tripId offline now locations endTime.
  unfold Offline.startTracking.
  match goal with
  | |- context [Offline.mkScreen (Some ?t0) ?c ?sp ?p ?l ?ts] =>
      destruct (O locations t0 c sp p l ts) as (t & E & I1 & I2 & I3 & I4)
  end.
  simpl in I1, I2, I3, I4.
  exists t. unfold Offline.stopTracking. rewrite E.
  eexists. split; [reflexivity |].
  split; [exact I1 |]. split; [exact I4 |]. split; [exact I3 |].
  split; [reflexivity |].
  cbn [duration_minutes]. rewrite I2. apply (toFixed_error 2).
Qed.

(** ** The revisions side by side *)

Lemma same_trip_step location f o :
  same_trip f o ->
  same_trip (Foreground.handleLocationUpdate location f)
            (Offline.handleLocationUpdate location o).
Proof.
  intros (t & Eref & Hd & Hm & Hr & Ha & Hs & Hb & Hp & Hl).
  unfold same_trip, Offline.handleLocationUpdate. rewrite Eref.
  eexists. split; [reflexivity |].
  simpl. fold (speed_at location).
  rewrite Hd, Hm, Hr, Ha, Hs, Hp, Hl.
  do 5 (split; [reflexivity |]).
  split; [counter_cases |].
  split; reflexivity.
Qed.

Lemma same_trip_feed locations : forall f o,
  same_trip f o ->
  same_trip (Foreground.feed locations f) (Offline.feed locations o).
Proof.
  induction locations as [| location rest IH]; intros f o H; [exact H |].
  apply IH. now apply same_trip_step.
Qed.

Lemma count_low_speed_brakes (speeds : list Z) : forall prev,
  count_pairs is_hard_brake prev speeds =
  count_pairs is_guarded_hard_brake prev speeds
  + count_pairs is_low_speed_hard_brake prev speeds.
Proof.
  induction speeds as [| v rest IH]; intros prev; [reflexivity |].
  cbn [count_pairs]. rewrite (IH v).
  unfold is_hard_brake, is_guarded_hard_brake, is_low_speed_hard_brake.
  destruct (Z.ltb_spec 15 (prev - v)); destruct (Z.ltb_spec 20 prev);
    destruct (Z.leb_spec prev 20); simpl andb; cbv iota; lia.
Qed.

(** Fed the same fixes, the first and the third revision accumulate the
    same distance, maximum, readings, hard accelerations and speeding
    events; the third counts fewer hard brakes by exactly the drops of
    more than 15 km/h that start at 20 km/h or less, and so never scores
    the trip lower. *)
Theorem revisions_side_by_side :
  forall device tripId offline now locations,
    let f := Foreground.feed locations
               (Foreground.startTracking tripId now) in
    let o := Offline.feed locations
               (Offline.startTracking device tripId offline now) in
    same_trip f o /\
    exists t,
      Offline.tripDataRef o = Some t /\
      Foreground.hardBrakes (Foreground.tripData f) =
        Offline.hardBrakes t
        + count_pairs is_low_speed_hard_brake 0
            (Foreground.speedReadings (Foreground.tripData f)) /\
      Foreground.trip_score (Foreground.tripData f)
      <= Offline.trip_score t.
Proof.
  intros device tripId offline now locations f o.
  assert (S : same_trip f o).
  { apply same_trip_feed. unfold same_trip.
    eexists. split; [reflexivity |]. simpl.
    do 5 (split; [reflexivity |]). split; [lia |]. split; reflexivity. }
  split; [exact S |].
  destruct (Foreground_recount locations
              (Foreground.startTracking tripId now)) as (Fb & _).
  cbv zeta in Fb.
  change (Foreground.feed locations (Foreground.startTracking tripId now))
    with f in Fb.
  change (Foreground.previousSpeed (Foreground.startTracking tripId now))
    with 0 in Fb.
  change (Foreground.hardBrakes
            (Foreground.tripData (Foreground.startTracking tripId now)))
    with 0 in Fb.
  assert (Fr : Foreground.speedReadings (Foreground.tripData f)
               = map speed_at locations)
    by (subst f; now rewrite Foreground_readings_feed).
  destruct S as (t & E & _ & _ & Hr & Ha & Hs & Hb & _).
  exists t. split; [exact E |].
  assert (Ob : Offline.hardBrakes t =
               count_pairs is_guarded_hard_brake 0 (map speed_at locations)).
  { subst o. unfold Offline.startTracking in E.
    match type of E with
    | context [Offline.mkScreen (Some ?t0) ?c ?sp ?p ?l ?ts] =>
        destruct (Offline_recount locations t0 c sp p l ts)
          as (t2 & E2 & Ob & _)
    end.
    rewrite E in E2. injection E2 as <-. exact Ob. }
  split.
  - rewrite Fb, Ob, Fr. simpl. apply count_low_speed_brakes.
  - rewrite Foreground_trip_score_spec, Offline_trip_score_spec,
      !spec_score_eq. lia.
Qed.
